(** * sidekick: the init workflow and the host/context registry

    A shallow embedding of the Go sources

      - utils/config.go            (the registry: lookup, upsert, Save, Print)
      - cmd/initialize/initialize.go   (the six init stages and [InitCmd.Run])
      - cmd/config (config.go)     (config current / use / migrate)
      - cmd/root.go                (the pre-run hook [initConfig] and [Execute])

    Go strings are byte strings; they are modelled by [string] (lists of
    8-bit characters).  A Go [error] is modelled by [option string]
    ([None] is [nil], [Some msg] carries the message); a Go pair
    [(T, error)] by [result T].  Everything the program does to the
    outside world (ssh logins, remote commands, local processes, prompts,
    files, messages sent to the TUI program) is an [Action] appended to a
    [Trace]; the answers of the outside world come from an [Env], a
    family of oracles that see the trace so far. *)

From Stdlib Require Import ZArith Ascii String List Lia.
From stdpp Require Import base list strings.

Local Open Scope string_scope.
Local Open Scope list_scope.
Local Open Scope Z_scope.

(** ** Errors and results *)

Definition error := option string.

Inductive result (A : Type) : Type :=
| Ok (a : A)
| Err (msg : string).
Arguments Ok {A} a.
Arguments Err {A} msg.

(** ** The data model of package utils *)

(** The struct declarations of package utils are not part of the sources
    at hand; the fields are the ones [initialize.go] and [config.go] read
    and write (Name, Address, CertEmail, Distro, PlatformId, PublicKey,
    SecretKey), which are also the ones the registry document lists.
    Rocq projections share one name space, so each field carries its
    struct as a prefix. *)
Record SidekickServer : Type := mkServer {
  Server_Name : string;
  Server_Address : string;
  Server_CertEmail : string;
  Server_Distro : string;
  Server_PlatformId : string;
  Server_PublicKey : string;
  Server_SecretKey : string
}.

Record SidekickContext : Type := mkContext {
  Context_Name : string;
  Context_Server : string
}.

Record SidekickConfig : Type := mkConfig {
  Version : string;
  Servers : list SidekickServer;
  Contexts : list SidekickContext;
  CurrentContext : string
}.

(** A named, ordered batch of remote commands (the stage catalog's
    descriptor); only [Commands] is read by the code at hand. *)
Record Stage : Type := mkStage {
  Stage_Name : string;
  Commands : list string
}.



(** ** Go's strings package, on byte strings *)

Module strings.

(** [strings.Split(s, sep)] for a one-byte separator: the pieces of [s]
    between the occurrences of [sep]; a string without the separator is
    returned whole, so the result is never empty. *)
Fixpoint Split (s : string) (sep : ascii) : list string :=
  match s with
  | EmptyString => [""]
  | String a rest =>
      if decide (a = sep) then "" :: Split rest sep
      else match Split rest sep with
           | piece :: pieces => String a piece :: pieces
           | [] => [String a ""]
           end
  end.

(** [strings.ReplaceAll(s, old, "")] for a one-byte [old]. *)
Fixpoint RemoveAll (s : string) (old : ascii) : string :=
  match s with
  | EmptyString => ""
  | String a rest =>
      if decide (a = old) then RemoveAll rest old else String a (RemoveAll rest old)
  end.

Definition lowerByte (a : ascii) : ascii :=
  let n := nat_of_ascii a in
  if ((65 <=? n) && (n <=? 90))%nat then ascii_of_nat (n + 32) else a.

(** [strings.ToLower] on the ASCII letters (the comparison it feeds is
    with the one-letter string y). *)
Fixpoint ToLower (s : string) : string :=
  match s with
  | EmptyString => ""
  | String a rest => String (lowerByte a) (ToLower rest)
  end.

End strings.

Definition newline : string := String "010"%char "".
Definition dquote : string := String "034"%char "".

(** ** The outside world *)

(** An open ssh session, as the outside world names it. *)
Definition Client := nat.

(** Package render, as far as the workflow talks to it: the three
    messages sent to the TUI program. *)
Module render.
Inductive Msg : Type :=
| NextStageMsg
| ErrorMsg (ErrorStr : string)
| AllDoneMsg (Message : string).
End render.

Inductive Action : Type :=
| ALookPath (file : string)                    (* exec.LookPath *)
| AExec (name : string) (args : list string)   (* exec.Command(...).Run / .Output *)
| ALogin (server user : string)                (* utils.Login *)
| ARunCommand (client : Client) (cmd : string) (* utils.RunCommand *)
| AAsk (question defaultValue : string)        (* render.GenerateTextQuestion *)
| AReadFile (path : string)                    (* os.ReadFile *)
| AWriteFile (path data : string)              (* os.WriteFile *)
| AStdout (data : string)                      (* os.Stdout.Write, fmt.Println *)
| ASend (m : render.Msg)                       (* p.Send *)
| AProgramRun                                  (* p.Run *)
| AFatal (message : string).                   (* pterm.Fatal.Println: its FATAL line on stdout *)

Definition Trace := list Action.

(** What [utils.RunCommand] hands back: the text its output channel
    delivers and the error of the call.  The receive [<-outChan] is taken
    to deliver (a channel that never delivers would block the worker for
    ever, which a terminating model cannot show). *)
Record CommandResult : Type := mkCommandResult {
  Output : string;
  RunErr : error
}.

(** The oracles.  Each one sees the actions performed so far, so the
    outside world may change as the program acts on it. *)
Record Env : Type := mkEnv {
  lookPath : Trace -> string -> error;
  execRun : Trace -> string -> list string -> error;
  execOutput : Trace -> string -> list string -> result string;
  sshLogin : Trace -> string -> string -> result Client;
  sshRun : Trace -> Client -> string -> CommandResult;
  textAnswer : Trace -> string -> string -> string;
  readFile : Trace -> string -> result string;
  writeFile : Trace -> string -> string -> error;
  stdoutWrite : Trace -> string -> error;
  programRun : Trace -> error;
  randomName : string;                 (* namesgenerator.GetRandomName(0) *)
  elapsed : Trace -> string;           (* time.Since(start).Round(time.Second).String() *)
  configPath : string;                 (* viper.GetString("config") *)
  IsValidIPAddress : string -> bool;   (* utils.IsValidIPAddress *)
  yamlMarshal : SidekickConfig -> result string;
  yamlUnmarshalServer : string -> result SidekickServer
}.

(** The stage catalog of package utils (constants that are not part of
    the sources at hand), taken as a parameter. *)
Record Catalog : Type := mkCatalog {
  UsersetupStage : Stage;
  SetupStage : Stage;
  DockerStage : Stage;
  GetTraefikStage : string -> Stage
}.

(** ** The monad of the embedding

    A computation reads the trace so far and returns its value together
    with the actions it performed itself, in order. *)

Definition M (A : Type) : Type := Trace -> A * list Action.

Definition ret {A : Type} (a : A) : M A := fun _ => (a, []).

Definition bind {A B : Type} (m : M A) (k : A -> M B) : M B :=
  fun t =>
    let r := m t in
    let r' := k (fst r) (t ++ snd r) in
    (fst r', snd r ++ snd r').

(** stdpp's monad notations: [x ← m; k] and [m;; k]. *)
#[global] Instance M_ret : MRet M := @ret.
#[global] Instance M_bind : MBind M := fun A B k m => bind m k.

(** One action, answered by an oracle that sees the trace so far. *)
Definition perform {A : Type} (a : Action) (oracle : Trace -> A) : M A :=
  fun t => (oracle t, [a]).

(** The actions of a computation started on a fresh trace. *)
Definition actionsOf {A : Type} (m : M A) : list Action := snd (m []).

(** The messages sent to the TUI program, in the order they were sent. *)
Fixpoint events (l : list Action) : list render.Msg :=
  match l with
  | [] => []
  | ASend m :: rest => m :: events rest
  | _ :: rest => events rest
  end.

(** How a command ends the process: [os.Exit], [log.Fatalf] and pterm's
    Fatal printer end it at once with a status; otherwise [Run] returns. *)
Inductive Exit : Type :=
| OsExit (code : Z)
| Returned.

(** Package pterm, as far as the commands use it. *)
Module pterm.

(** [pterm.Fatal.Println(message)]: the printer writes its FATAL line
    for the message to standard output and then panics; a Go process
    that panics ends with status 2.  Nothing after the call is run. *)
Definition FatalPrintln (message : string) : M Exit :=
  perform (AFatal message) (fun _ => OsExit 2).

End pterm.

(** ** Package utils *)

Module utils.

(** *** config.go: the registry stored on the command context

    [cmdContext] is what [cmd.Context().Value("config")] holds: the
    registry when the type assertion succeeds, nothing otherwise. *)
Definition GetSidekickConfigFromCmdContext (cmdContext : option SidekickConfig)
    : result SidekickConfig :=
  match cmdContext with
  | Some config => Ok config
  | None => Err "config not found in cmd context. This is likely a bug in the root cmd initialization."
  end.

(** *** config.go: lookup *)

(** [for _, ctx := range c.Contexts { if ctx.Name == name { return ctx, nil } }] *)
Fixpoint findContextIn (name : string) (l : list SidekickContext) : result SidekickContext :=
  match l with
  | [] => Err ("context '" +:+ name +:+ "' not found")
  | ctx :: rest =>
      if decide (Context_Name ctx = name) then Ok ctx else findContextIn name rest
  end.

Definition FindContext (c : SidekickConfig) (name : string) : result SidekickContext :=
  findContextIn name (Contexts c).

(** [for _, s := range c.Servers { if s.Name == name { return s, nil } }] *)
Fixpoint findServerIn (name : string) (l : list SidekickServer) : result SidekickServer :=
  match l with
  | [] => Err ("server '" +:+ name +:+ "' not found")
  | s :: rest =>
      if decide (Server_Name s = name) then Ok s else findServerIn name rest
  end.

Definition FindServer (c : SidekickConfig) (name : string) : result SidekickServer :=
  findServerIn name (Servers c).

Definition FindServerByContext (c : SidekickConfig) (ctxName : string) : result SidekickServer :=
  match FindContext c ctxName with
  | Err e => Err e
  | Ok ctx => FindServer c (Context_Server ctx)
  end.

(** *** config.go: upsert *)

(** The index loop shared in shape by both upserts:
    [idx := -1; for i, elem := range xs { if elem.Name == name { idx = i; break } }].
    [i] is the index of the head of [xs] in the whole slice. *)
Fixpoint indexLoop {A : Type} (nameOf : A -> string) (name : string)
    (xs : list A) (i : Z) : Z :=
  match xs with
  | [] => -1
  | elem :: rest =>
      if decide (nameOf elem = name) then i else indexLoop nameOf name rest (i + 1)
  end.

Definition AddOrReplaceContext (c : SidekickConfig) (ctx : SidekickContext) : SidekickConfig :=
  let idx := indexLoop Context_Name (Context_Name ctx) (Contexts c) 0 in
  if decide (idx = -1)
  then mkConfig (Version c) (Servers c) (Contexts c ++ [ctx]) (CurrentContext c)
  else mkConfig (Version c) (Servers c) (<[Z.to_nat idx := ctx]> (Contexts c)) (CurrentContext c).

Definition AddOrReplaceServer (c : SidekickConfig) (s : SidekickServer) : SidekickConfig :=
  let idx := indexLoop Server_Name (Server_Name s) (Servers c) 0 in
  if decide (idx = -1)
  then mkConfig (Version c) (Servers c ++ [s]) (Contexts c) (CurrentContext c)
  else mkConfig (Version c) (<[Z.to_nat idx := s]> (Servers c)) (Contexts c) (CurrentContext c).

Section WithEnv.
Variable env : Env.

(** *** config.go: Save and Print *)

Definition Save (c : SidekickConfig) (path : string) : M error :=
  match yamlMarshal env c with
  | Err err => mret (Some err)
  | Ok data => perform (AWriteFile path data) (fun t => writeFile env t path data)
  end.

Definition Print (c : SidekickConfig) : M error :=
  match yamlMarshal env c with
  | Err err => mret (Some err)
  | Ok data => perform (AStdout data) (fun t => stdoutWrite env t data)
  end.

(** *** The session primitives

    [Login] and [RunCommand] are calls into the outside world. *)

Definition Login (server user : string) : M (result Client) :=
  perform (ALogin server user) (fun t => sshLogin env t server user).

Definition RunCommand (client : Client) (cmd : string) : M CommandResult :=
  perform (ARunCommand client cmd) (fun t => sshRun env t client cmd).

(** Modelled from the spec: the body of [utils.RunCommandsWithTUIHook]
    is missing.  Every command of the list is executed strictly in
    order, one at a time, and the batch is aborted on the first command
    that fails to execute; the error of that command is returned.  The
    source also hands it the TUI program [p]; the spec knows three kinds
    of progress events, all of them sent by the worker, so the batch as
    modelled here sends the program none of them. *)
Fixpoint RunCommandsWithTUIHook (client : Client) (commands : list string) : M error :=
  match commands with
  | [] => mret None
  | command :: rest =>
      r ← RunCommand client command;
      match RunErr r with
      | Some err => mret (Some err)
      | None => RunCommandsWithTUIHook client rest
      end
  end.

(** Modelled from the spec: the body of [utils.RunStage] is missing.
    The stage's commands are executed as above; a failure is reported
    with the stage's name and the underlying cause. *)
Definition RunStage (client : Client) (stage : Stage) : M error :=
  e ← RunCommandsWithTUIHook client (Commands stage);
  match e with
  | Some cause => mret (Some (Stage_Name stage +:+ ": " +:+ cause))
  | None => mret None
  end.

End WithEnv.

End utils.

(** ** Package initialize (cmd/initialize/initialize.go) *)

Module initialize.

Section WithEnv.
Variable env : Env.
Variable catalog : Catalog.

(** [exec.LookPath(file)]: only the error is looked at. *)
Definition LookPath (file : string) : M error :=
  perform (ALookPath file) (fun t => lookPath env t file).

(** [exec.Command(name, args...).Run()] *)
Definition CommandRun (name : string) (args : list string) : M error :=
  perform (AExec name args) (fun t => execRun env t name args).

(** [exec.Command(name, args...).Output()] *)
Definition CommandOutput (name : string) (args : list string) : M (result string) :=
  perform (AExec name args) (fun t => execOutput env t name args).

Definition Send (m : render.Msg) : M unit :=
  perform (ASend m) (fun _ => tt).

(** One local tool of [stage1LocalReqs]: looked up, installed with brew
    when the lookup fails. *)
Definition ensureTool (tool : string) : M error :=
  found ← LookPath tool;
  match found with
  | None => mret None
  | Some _ =>
      e ← CommandRun "brew" ["install"; tool];
      match e with
      | Some err => mret (Some ("failed to install " +:+ tool +:+ ": " +:+ err))
      | None => mret None
      end
  end.

Definition stage1LocalReqs : M error :=
  e ← ensureTool "sops";
  match e with
  | Some err => mret (Some err)
  | None => ensureTool "age"
  end.

(** [for _, user := range users { client, err := utils.Login(server, user);
     if err == nil { return client, user, nil } }] *)
Fixpoint loginLoop (server : string) (users : list string) : M (result (Client * string)) :=
  match users with
  | [] => mret (Err "unable to establish SSH connection")
  | user :: rest =>
      r ← utils.Login env server user;
      match r with
      | Ok client => mret (Ok (client, user))
      | Err _ => loginLoop server rest
      end
  end.

Definition stage2Login (server : string) : M (result (Client * string)) :=
  loginLoop server ["root"; "sidekick"].

Definition userProbe : string := "id -u sidekick".

Definition stage3UserSetup (client : Client) (loggedInUser : string) : M error :=
  r ← utils.RunCommand env client userProbe;
  let hasSidekickUser :=
    match RunErr r with
    | Some _ => false
    | None => if decide (Output r = "") then false else true
    end in
  if negb hasSidekickUser && bool_decide (loggedInUser = "root")
  then utils.RunStage env client (UsersetupStage catalog)
  else mret None.

Definition distroProbe : string := "grep '^ID=' /etc/os-release | awk -F'=' '{print $2}'".
Definition archProbe : string := "uname -m".

Definition setDistro (s : SidekickServer) (v : string) : SidekickServer :=
  mkServer (Server_Name s) (Server_Address s) (Server_CertEmail s) v
           (Server_PlatformId s) (Server_PublicKey s) (Server_SecretKey s).
Definition setPlatformId (s : SidekickServer) (v : string) : SidekickServer :=
  mkServer (Server_Name s) (Server_Address s) (Server_CertEmail s) (Server_Distro s)
           v (Server_PublicKey s) (Server_SecretKey s).
Definition setPublicKey (s : SidekickServer) (v : string) : SidekickServer :=
  mkServer (Server_Name s) (Server_Address s) (Server_CertEmail s) (Server_Distro s)
           (Server_PlatformId s) v (Server_SecretKey s).
Definition setSecretKey (s : SidekickServer) (v : string) : SidekickServer :=
  mkServer (Server_Name s) (Server_Address s) (Server_CertEmail s) (Server_Distro s)
           (Server_PlatformId s) (Server_PublicKey s) v.
Definition setAddress (s : SidekickServer) (v : string) : SidekickServer :=
  mkServer (Server_Name s) v (Server_CertEmail s) (Server_Distro s)
           (Server_PlatformId s) (Server_PublicKey s) (Server_SecretKey s).
Definition setCertEmail (s : SidekickServer) (v : string) : SidekickServer :=
  mkServer (Server_Name s) (Server_Address s) v (Server_Distro s)
           (Server_PlatformId s) (Server_PublicKey s) (Server_SecretKey s).

(** Lines 90-95: the two tests on the detected architecture. *)
Definition detectPlatform (arch : string) (server : SidekickServer) : SidekickServer :=
  let server := if decide (arch = "x86_64") then setPlatformId server "linux/amd64" else server in
  let server := if decide (arch = "aarch64") then setPlatformId server "linux/arm64" else server in
  server.

(** Lines 107-115: the output of age-keygen parsed into the two key fields. *)
Definition parseKeygen (outStr : string) (server : SidekickServer) : SidekickServer :=
  let lines := strings.Split outStr "010"%char in
  if decide (3 <= length lines)%nat then
    let server := setSecretKey server (nth 2 lines "") in
    let parts := strings.Split (nth 1 lines "") ":"%char in
    if decide (1 < length parts)%nat
    then setPublicKey server (strings.RemoveAll (nth 1 parts "") " "%char)
    else server
  else server.

(** [server] is a pointer in the source: the stage returns the Host
    Identity as it has left it, on the error paths too. *)
Definition stage4VPSSetup (client : Client) (server : SidekickServer)
    : M (SidekickServer * error) :=
  r ← utils.RunCommand env client distroProbe;
  let linuxDistro := Output r in
  let server := setDistro server linuxDistro in
  r' ← utils.RunCommand env client archProbe;
  let arch := Output r' in
  let server := detectPlatform arch server in
  e ← utils.RunCommandsWithTUIHook env client (Commands (SetupStage catalog));
  match e with
  | Some err => mret (server, Some err)
  | None =>
      if decide (Server_PublicKey server = "" \/ Server_SecretKey server = "") then
        o ← CommandOutput "age-keygen" [];
        match o with
        | Err err => mret (server, Some err)
        | Ok outStr => mret (parseKeygen outStr server, None)
        end
      else mret (server, None)
  end.

Definition dockerProbe : string :=
  "command -v docker &> /dev/null && command -v docker compose &> /dev/null && echo "
  +:+ dquote +:+ "1" +:+ dquote +:+ " || echo " +:+ dquote +:+ "0" +:+ dquote.

Definition stage5Docker (client : Client) : M error :=
  r ← utils.RunCommand env client dockerProbe;
  let dockerReady :=
    match RunErr r with
    | None => if decide (Output r = "1") then true else false
    | Some _ => false
    end in
  if negb dockerReady
  then utils.RunCommandsWithTUIHook env client (Commands (DockerStage catalog))
  else mret None.

Definition traefikProbe : string :=
  "[ -d " +:+ dquote +:+ "traefik" +:+ dquote +:+ " ] && echo "
  +:+ dquote +:+ "1" +:+ dquote +:+ " || echo " +:+ dquote +:+ "0" +:+ dquote.

Definition stage6Traefik (client : Client) (email : string) : M error :=
  r ← utils.RunCommand env client traefikProbe;
  let traefikSetup :=
    match RunErr r with
    | None => if decide (Output r = "1") then true else false
    | Some _ => false
    end in
  if negb traefikSetup
  then
    let traefikStage := GetTraefikStage catalog email in
    utils.RunCommandsWithTUIHook env client (Commands traefikStage)
  else mret None.

Definition setCurrentContext (c : SidekickConfig) (v : string) : SidekickConfig :=
  mkConfig (Version c) (Servers c) (Contexts c) v.

(** [time.Since(start).Round(time.Second).String()]: read off the outside
    world, no action of the program. *)
Definition Since : M string := fun t => (elapsed env t, []).

(** Lines 282-285: the Host Identity and a context of the same name are
    put into the registry, and that context is made the current one. *)
Definition register (config : SidekickConfig) (sidekickServer : SidekickServer)
    : SidekickConfig :=
  let config := utils.AddOrReplaceServer config sidekickServer in
  let newContext := mkContext (Server_Name sidekickServer) (Server_Name sidekickServer) in
  let config := utils.AddOrReplaceContext config newContext in
  setCurrentContext config (Context_Name newContext).

(** Line 292: the text of the completion message. *)
Definition doneMessage (took : string) : string :=
  "VPS Setup Done in " +:+ took +:+ "," +:+ newline +:+
  "Your VPS is ready! You can now run Sidekick launch in your app folder".

(** The body of the goroutine of [InitCmd.Run] (lines 234-293).  The
    registry is reached through a pointer in the source; the worker
    returns it as it has left it.  The pauses ([time.Sleep]) before each
    [NextStageMsg] are not part of the model. *)
Definition worker (config : SidekickConfig) (server certEmail : string)
    (sidekickServer : SidekickServer) : M SidekickConfig :=
  e1 ← stage1LocalReqs;
  match e1 with
  | Some err =>
      Send (render.ErrorMsg ("Local requirements check failed: " +:+ err));; mret config
  | None =>
  Send render.NextStageMsg;;
  r2 ← stage2Login server;
  match r2 with
  | Err err => Send (render.ErrorMsg ("Login failed: " +:+ err));; mret config
  | Ok (sshClient, loggedInUser) =>
  Send render.NextStageMsg;;
  e3 ← stage3UserSetup sshClient loggedInUser;
  match e3 with
  | Some err => Send (render.ErrorMsg ("User setup failed: " +:+ err));; mret config
  | None =>
  r ← utils.Login env server "sidekick";
  match r with
  | Err err => Send (render.ErrorMsg ("Failed to login as sidekick: " +:+ err));; mret config
  | Ok sidekickClient =>
  Send render.NextStageMsg;;
  r4 ← stage4VPSSetup sidekickClient sidekickServer;
  let sidekickServer := fst r4 in
  match snd r4 with
  | Some err => Send (render.ErrorMsg ("VPS setup failed: " +:+ err));; mret config
  | None =>
  Send render.NextStageMsg;;
  e5 ← stage5Docker sidekickClient;
  match e5 with
  | Some err => Send (render.ErrorMsg ("Docker setup failed: " +:+ err));; mret config
  | None =>
  Send render.NextStageMsg;;
  e6 ← stage6Traefik sidekickClient certEmail;
  match e6 with
  | Some err => Send (render.ErrorMsg ("Traefik setup failed: " +:+ err));; mret config
  | None =>
  let config := register config sidekickServer in
  es ← utils.Save env config (configPath env);
  match es with
  | Some err => Send (render.ErrorMsg ("Failed to write config: " +:+ err));; mret config
  | None =>
  took ← Since;
  Send (render.AllDoneMsg (doneMessage took));;
  mret config
  end end end end end end end end.

(** The flags of the init command. *)
Record Flags : Type := mkFlags {
  flag_yes : bool;
  flag_server : string;
  flag_email : string;
  flag_name : string
}.

(** [render.GenerateTextQuestion(question, defaultValue, "")]: the third
    argument is the empty string at every call. *)
Definition GenerateTextQuestion (question defaultValue : string) : M string :=
  perform (AAsk question defaultValue) (fun t => textAnswer env t question defaultValue).

Definition Println (line : string) : M error :=
  perform (AStdout (line +:+ newline)) (fun t => stdoutWrite env t (line +:+ newline)).

Definition ProgramRun : M error := perform AProgramRun (programRun env).

(** [InitCmd.Run] (lines 163-299).  [log.Fatalf] ends the process with
    status 1.  The TUI program runs in the foreground while the worker
    runs; the model lets the worker finish and then asks the outside
    world how [p.Run] ended. *)
Definition Run (cmdContext : option SidekickConfig) (flags : Flags) : M Exit :=
  match utils.GetSidekickConfigFromCmdContext cmdContext with
  | Err _ => mret (OsExit 1)
  | Ok config =>
  let skipPromptsFlag := flag_yes flags in
  name ← (if decide (flag_name flags = "")
          then GenerateTextQuestion "Please enter a name for your VPS" (randomName env)
          else mret (flag_name flags));
  server ← (if decide (flag_server flags = "")
            then GenerateTextQuestion "Please enter the IPv4 Address of your VPS" ""
            else mret (flag_server flags));
  if bool_decide (flag_server flags = "") && negb (IsValidIPAddress env server)
  then mret (OsExit 1)
  else
  certEmail ← (if decide (flag_email flags = "")
               then GenerateTextQuestion "Please enter an email for use with TLS certs" ""
               else mret (flag_email flags));
  if decide (certEmail = "") then mret (OsExit 1) else
  let sidekickServer :=
    match utils.FindServer config name with
    | Ok found => found
    | Err _ => mkServer name server certEmail "" "" "" ""
    end in
  proceed ←
    (if bool_decide (Server_Name sidekickServer = name)
        && negb (bool_decide (Server_Address sidekickServer = server))
        && negb (bool_decide (Server_PublicKey sidekickServer = ""))
        && negb skipPromptsFlag
     then
       confirm ← GenerateTextQuestion
         ("The server '" +:+ Server_Name sidekickServer +:+
          "' was previously setup with Sidekick using a different address. Would you like to overwrite the settings? (y/n)")
         "n";
       if decide (strings.ToLower confirm = "y") then mret true
       else Println (newline +:+ "You can use a different server name to complete the setup");;
            mret false
     else mret true);
  if negb proceed then mret (OsExit 0) else
  let sidekickServer := setAddress sidekickServer server in
  let sidekickServer := setCertEmail sidekickServer certEmail in
  utils.Login env server "root";;
  worker config server certEmail sidekickServer;;
  e ← ProgramRun;
  match e with
  | Some err => Println ("Error running program: " +:+ err);; mret (OsExit 1)
  | None => mret Returned
  end
  end.

End WithEnv.

End initialize.

(** ** Package config (cmd/config) *)

Module config.

Section WithEnv.
Variable env : Env.

Definition currentContextCmd (cmdContext : option SidekickConfig) : M Exit :=
  match utils.GetSidekickConfigFromCmdContext cmdContext with
  | Err err => pterm.FatalPrintln err
  | Ok config => initialize.Println env (CurrentContext config);; mret Returned
  end.

(** [args] holds exactly one element ([cobra.ExactArgs(1)]); it is the
    parameter [contextName].  The error [Save] returns is dropped. *)
Definition useContextCmd (cmdContext : option SidekickConfig) (contextName : string) : M Exit :=
  match utils.GetSidekickConfigFromCmdContext cmdContext with
  | Err err => pterm.FatalPrintln err
  | Ok config =>
      let config := initialize.setCurrentContext config contextName in
      utils.Save env config (configPath env);;
      mret Returned
  end.

(** Lines 76-86 of the migrate command: the registry built around the
    Host Identity read from the legacy document. *)
Definition migrated (serverConfig : SidekickServer) : SidekickConfig :=
  let serverConfig :=
    mkServer "default" (Server_Address serverConfig) (Server_CertEmail serverConfig)
             (Server_Distro serverConfig) (Server_PlatformId serverConfig)
             (Server_PublicKey serverConfig) (Server_SecretKey serverConfig) in
  let defaultContext := mkContext "default" "default" in
  mkConfig "1" [serverConfig] [defaultContext] (Context_Name defaultContext).

Definition migrateCmd : M Exit :=
  r ← perform (AReadFile (configPath env)) (fun t => readFile env t (configPath env));
  match r with
  | Err err => pterm.FatalPrintln err
  | Ok content =>
      match yamlUnmarshalServer env content with
      | Err err => pterm.FatalPrintln err
      | Ok serverConfig =>
          let newConfig := migrated serverConfig in
          e ← utils.Print env newConfig;
          match e with
          | Some err => pterm.FatalPrintln err
          | None => mret Returned
          end
      end
  end.

End WithEnv.

End config.

(** ** Package cmd (cmd/root.go) *)

Module cmd.

(** The registry [initConfig] builds when no registry file can be read
    (lines 85-90). *)
Definition emptyConfig : SidekickConfig := mkConfig "1" [] [] "".

(** [Execute]: a command whose [Run] returns leaves [rootCmd.Execute]
    without an error, and the process ends with status 0; [os.Exit] and
    the fatal printers end it with their own status. *)
Definition exitStatus (e : Exit) : Z :=
  match e with
  | OsExit code => code
  | Returned => 0
  end.

End cmd.

(** ** Concrete hosts

    Outside worlds on which the definitions above are evaluated. *)

Module hosts.

(** A printer standing for [yaml.Marshal] on the registry. *)
Definition showServer (s : SidekickServer) : string :=
  "- name: " +:+ Server_Name s +:+ newline +:+
  "  address: " +:+ Server_Address s +:+ newline +:+
  "  certEmail: " +:+ Server_CertEmail s +:+ newline +:+
  "  distro: " +:+ Server_Distro s +:+ newline +:+
  "  platformId: " +:+ Server_PlatformId s +:+ newline +:+
  "  publicKey: " +:+ Server_PublicKey s +:+ newline +:+
  "  secretKey: " +:+ Server_SecretKey s +:+ newline.

Definition showContext (c : SidekickContext) : string :=
  "- name: " +:+ Context_Name c +:+ newline +:+
  "  server: " +:+ Context_Server c +:+ newline.

Definition showConfig (c : SidekickConfig) : string :=
  "version: " +:+ Version c +:+ newline +:+
  "currentContext: " +:+ CurrentContext c +:+ newline +:+
  "contexts:" +:+ newline +:+ String.concat "" (map showContext (Contexts c)) +:+
  "servers:" +:+ newline +:+ String.concat "" (map showServer (Servers c)).

Definition keygenOutput : string :=
  "# created: 2024-08-01T10:00:00Z" +:+ newline +:+
  "# public key: age1qyqszqgpqyqszqgp" +:+ newline +:+
  "AGE-SECRET-KEY-1QYQSZQGPQYQSZQGP" +:+ newline.

Definition legacyServer : SidekickServer :=
  mkServer "" "198.51.100.7" "ops@example.org" "ubuntu" "linux/amd64"
           "age1legacy" "AGE-SECRET-KEY-1LEGACY".

(** A host described by how it answers remote commands and whether the
    registry file can be written; everything else succeeds. *)
Definition host (answers : Trace -> Client -> string -> CommandResult)
    (writable : bool) : Env :=
  {| lookPath := fun _ _ => None;
     execRun := fun _ _ _ => None;
     execOutput := fun _ _ _ => Ok keygenOutput;
     sshLogin := fun _ _ user => if decide (user = "root") then Ok 1%nat else Ok 2%nat;
     sshRun := answers;
     textAnswer := fun _ _ defaultValue => defaultValue;
     readFile := fun _ _ => Ok "address: 198.51.100.7";
     writeFile := fun _ _ _ => if writable then None else Some "permission denied";
     stdoutWrite := fun _ _ => None;
     programRun := fun _ => None;
     randomName := "brave_turing";
     elapsed := fun _ => "42s";
     configPath := "/home/me/.config/sidekick/default.yaml";
     IsValidIPAddress := fun _ => true;
     yamlMarshal := fun c => Ok (showConfig c);
     yamlUnmarshalServer := fun _ => Ok legacyServer |}.

(** A fresh machine: no service user, no container runtime, no reverse
    proxy; every command runs. *)
Definition freshAnswers : Trace -> Client -> string -> CommandResult :=
  fun _ _ cmd =>
    if decide (cmd = initialize.userProbe) then mkCommandResult "" (Some "Process exited with status 1")
    else if decide (cmd = initialize.distroProbe) then mkCommandResult "ubuntu" None
    else if decide (cmd = initialize.archProbe) then mkCommandResult "x86_64" None
    else if decide (cmd = initialize.dockerProbe) then mkCommandResult "0" None
    else if decide (cmd = initialize.traefikProbe) then mkCommandResult "0" None
    else mkCommandResult "" None.

(** A machine on which the workflow has already succeeded. *)
Definition provisionedAnswers : Trace -> Client -> string -> CommandResult :=
  fun _ _ cmd =>
    if decide (cmd = initialize.userProbe) then mkCommandResult "1001" None
    else if decide (cmd = initialize.distroProbe) then mkCommandResult "ubuntu" None
    else if decide (cmd = initialize.archProbe) then mkCommandResult "aarch64" None
    else if decide (cmd = initialize.dockerProbe) then mkCommandResult "1" None
    else if decide (cmd = initialize.traefikProbe) then mkCommandResult "1" None
    else mkCommandResult "" None.

(** A machine on which the probes of the install stages cannot be
    started, while every other command runs. *)
Definition probeFailsAnswers : Trace -> Client -> string -> CommandResult :=
  fun _ _ cmd =>
    if decide (cmd = initialize.userProbe) then mkCommandResult "" (Some "ssh: session failed")
    else if decide (cmd = initialize.dockerProbe) then mkCommandResult "" (Some "ssh: session failed")
    else if decide (cmd = initialize.traefikProbe) then mkCommandResult "" (Some "ssh: session failed")
    else if decide (cmd = initialize.archProbe) then mkCommandResult "riscv64" None
    else mkCommandResult "" None.

Definition fresh : Env := host freshAnswers true.
Definition provisioned : Env := host provisionedAnswers true.
Definition probeFails : Env := host probeFailsAnswers true.
Definition readOnly : Env := host provisionedAnswers false.

Definition catalog : Catalog :=
  {| UsersetupStage := mkStage "Adding user Sidekick"
       ["useradd -m -s /bin/bash sidekick"; "usermod -aG sudo sidekick"];
     SetupStage := mkStage "Setting up VPS" ["sudo apt-get update -y"; "mkdir -p sidekick"];
     DockerStage := mkStage "Setting up Docker"
       ["sudo apt-get install -y docker-ce"; "sudo usermod -aG docker sidekick"];
     GetTraefikStage := fun email =>
       mkStage "Setting up Traefik"
         ["mkdir -p traefik"; "echo " +:+ email +:+ " > traefik/email"; "docker compose up -d"] |}.

(** A Host Identity that already carries a keypair. *)
Definition keyedServer : SidekickServer :=
  mkServer "box1" "203.0.113.5" "a@b.com" "debian" "linux/amd64"
           "age1old" "AGE-SECRET-KEY-1OLD".

(** A registry with two hosts, box1 being the current one. *)
Definition twoHosts : SidekickConfig :=
  mkConfig "1"
    [keyedServer;
     mkServer "prod" "192.0.2.10" "ops@example.org" "debian" "linux/arm64"
              "age1prod" "AGE-SECRET-KEY-1PROD"]
    [mkContext "box1" "box1"; mkContext "prod" "prod"]
    "box1".

(** The Host Identity [InitCmd.Run] builds for box1 on an empty registry. *)
Definition box1Server : SidekickServer :=
  mkServer "box1" "203.0.113.5" "a@b.com" "" "" "" "".

Definition box1Flags : initialize.Flags :=
  initialize.mkFlags false "203.0.113.5" "a@b.com" "box1".

End hosts.

(** ** Vocabulary of the statements *)

(** What both upserts do to their slice: [l] with [x] put in by name. *)
Definition upserted {A : Type} (nameOf : A -> string) (x : A) (l : list A) : list A :=
  let idx := utils.indexLoop nameOf (nameOf x) l 0 in
  if decide (idx = -1) then l ++ [x] else <[Z.to_nat idx := x]> l.

(** An upsert of [x] by name, as a relation between a slice [l] and its
    image [l']: replacement of the first entry of that name at its own
    index, or an append when there is none. *)
Definition UpsertSemantics {A : Type} (nameOf : A -> string) (x : A) (l l' : list A) : Prop :=
  (forall (i : nat) (e : A),
      l !! i = Some e -> nameOf e = nameOf x ->
      (forall j e', (j < i)%nat -> l !! j = Some e' -> nameOf e' <> nameOf x) ->
      l' !! i = Some x /\ length l' = length l /\
      (forall j, j <> i -> l' !! j = l !! j)) /\
  ((forall e, e ∈ l -> nameOf e <> nameOf x) ->
      l' = l ++ [x] /\ length l' = S (length l)) /\
  (length l <= length l' <= S (length l))%nat.

(** The number of [NextStageMsg] among the messages sent. *)
Fixpoint advances (l : list render.Msg) : nat :=
  match l with
  | [] => 0
  | render.NextStageMsg :: rest => S (advances rest)
  | _ :: rest => advances rest
  end.

(** How a worker-like computation [c] ends, whatever the trace it starts
    on: either it sends at most [n] advances and then an error message as
    its very last action, or it sends exactly [n] advances, writes the
    registry [register config s] for some Host Identity [s] that satisfies
    [P], and sends the completion message as its very last action. *)
Definition Outcome (env : Env) (config : SidekickConfig) (P : SidekickServer -> Prop)
    (n : nat) (c : M SidekickConfig) : Prop :=
  forall t,
    (exists k msg pre,
        (k <= n)%nat /\
        snd (c t) = pre ++ [ASend (render.ErrorMsg msg)] /\
        events pre = replicate k render.NextStageMsg) \/
    (exists took data s pre,
        P s /\
        yamlMarshal env (initialize.register config s) = Ok data /\
        fst (c t) = initialize.register config s /\
        snd (c t) = pre ++ [AWriteFile (configPath env) data;
                            ASend (render.AllDoneMsg (initialize.doneMessage took))] /\
        events pre = replicate n render.NextStageMsg).

(** No message to the TUI program among the actions. *)
Definition Quiet {A : Type} (m : M A) : Prop :=
  forall t, events (snd (m t)) = [].

(** Only remote commands among the actions. *)
Definition isRunCommand (a : Action) : bool :=
  match a with ARunCommand _ _ => true | _ => false end.

(** ** Package cmd: the pre-run hook and the dispatch (cmd/root.go) *)

Module root.

(** What [initConfig] and its two helpers read of a cobra command: its
    name and, when it has a parent, the name of the parent. *)
Record Command : Type := mkCommand {
  Name : string;
  Parent : option string
}.

Definition requireConfigFile (c : Command) : bool :=
  let cmdName := Name c in
  if decide (cmdName = "init" \/ cmdName = "help") then false
  else
    match Parent c with
    | Some parentName =>
        if decide (parentName = "config" /\ cmdName = "migrate") then false else true
    | None => true
    end.

Definition shouldSkipConfigVersionCheck (c : Command) : bool :=
  let cmdName := Name c in
  if decide (cmdName = "help") then true
  else
    match Parent c with
    | Some parentName =>
        if decide (parentName = "config" /\ cmdName = "migrate") then true else false
    | None => false
    end.

(** How the pre-run hook ends: the fatal printer has ended the process
    with a status, or the registry has been stored on the command
    context. *)
Inductive PreRun : Type :=
| Stopped (code : Z)
| Ready (config : SidekickConfig).

Section WithEnv.
Variable env : Env.

(** [yaml.Unmarshal(content, &config)] on the zero registry: the
    registry it leaves behind and its error. *)
Variable unmarshalConfig : string -> SidekickConfig * error.

(** The fatal printer inside the hook: the FATAL line, then the end of
    the process with the status of [pterm.FatalPrintln]. *)
Definition fatal (message : string) : M PreRun :=
  e ← pterm.FatalPrintln message;
  mret (Stopped (cmd.exitStatus e)).

(** Lines 98-103: the version gate, and the registry put on the context. *)
Definition versionGate (c : Command) (config : SidekickConfig) : M PreRun :=
  if negb (bool_decide (Version config = "1")) && negb (shouldSkipConfigVersionCheck c)
  then fatal "An older version of the config file found. Please run 'sidekick config migrate'."
  else mret (Ready config).

(** [initConfig] (lines 72-104).  On a registry that cannot be parsed
    the source only formats a message ([pterm.Fatal.Sprintf]) and drops
    it, so the registry left by the parser goes on to the version
    gate. *)
Definition initConfig (c : Command) : M PreRun :=
  r ← perform (AReadFile (configPath env)) (fun t => readFile env t (configPath env));
  match r with
  | Err _ =>
      if requireConfigFile c then fatal "Sidekick config not found - Run sidekick init"
      else versionGate c cmd.emptyConfig
  | Ok content =>
      let config := fst (unmarshalConfig content) in
      versionGate c config
  end.

(** A command line of the program, as far as the commands at hand go. *)
Inductive Invocation : Type :=
| Init (flags : initialize.Flags)
| ConfigCurrent
| ConfigUse (contextName : string)
| ConfigMigrate.

(** The cobra command an invocation selects ([init] of this file and of
    cmd/config: the command tree). *)
Definition commandOf (i : Invocation) : Command :=
  match i with
  | Init _ => mkCommand "init" (Some "sidekick")
  | ConfigCurrent => mkCommand "current" (Some "config")
  | ConfigUse _ => mkCommand "use" (Some "config")
  | ConfigMigrate => mkCommand "migrate" (Some "config")
  end.

Variable catalog : Catalog.

(** [Execute]: cobra runs the persistent pre-run hook of the root
    command, [initConfig], and then the [Run] of the selected command
    with the context the hook has set; the result is the exit status
    of the process. *)
Definition Execute (i : Invocation) : M Z :=
  pre ← initConfig (commandOf i);
  match pre with
  | Stopped code => mret code
  | Ready config =>
      e ← match i with
          | Init flags => initialize.Run env catalog (Some config) flags
          | ConfigCurrent => config.currentContextCmd env (Some config)
          | ConfigUse contextName => config.useContextCmd env (Some config) contextName
          | ConfigMigrate => config.migrateCmd env
          end;
      mret (cmd.exitStatus e)
  end.

End WithEnv.

End root.

(** ** More concrete hosts *)

Module scenarios.

(** [env] with other answers to the questions asked on the terminal. *)
Definition answering (env : Env) (answers : Trace -> string -> string -> string) : Env :=
  mkEnv (lookPath env) (execRun env) (execOutput env) (sshLogin env) (sshRun env)
        answers (readFile env) (writeFile env) (stdoutWrite env) (programRun env)
        (randomName env) (elapsed env) (configPath env) (IsValidIPAddress env)
        (yamlMarshal env) (yamlUnmarshalServer env).

(** [env] with another address check. *)
Definition validating (env : Env) (valid : string -> bool) : Env :=
  mkEnv (lookPath env) (execRun env) (execOutput env) (sshLogin env) (sshRun env)
        (textAnswer env) (readFile env) (writeFile env) (stdoutWrite env) (programRun env)
        (randomName env) (elapsed env) (configPath env) valid
        (yamlMarshal env) (yamlUnmarshalServer env).


(** [env] without a registry file. *)
Definition withoutFile (env : Env) : Env :=
  mkEnv (lookPath env) (execRun env) (execOutput env) (sshLogin env) (sshRun env)
        (textAnswer env) (fun _ _ => Err "no such file or directory")
        (writeFile env) (stdoutWrite env) (programRun env)
        (randomName env) (elapsed env) (configPath env) (IsValidIPAddress env)
        (yamlMarshal env) (yamlUnmarshalServer env).

(** An address check that accepts dotted digits only. *)
Definition dottedDigits (s : string) : bool :=
  negb (bool_decide (s = "")) &&
  forallb (fun a => bool_decide (a = "."%char) ||
                    ((48 <=? nat_of_ascii a) && (nat_of_ascii a <=? 57))%nat)
          (list_ascii_of_string s).

(** A parser of the registry file that knows two documents. *)
Definition parseRegistry (content : string) : SidekickConfig * error :=
  if decide (content = "registry") then (hosts.twoHosts, None)
  else if decide (content = "address: 198.51.100.7")
       then (mkConfig "" [] [] "", None)
       else (mkConfig "" [] [] "", Some "yaml: unmarshal errors").

(** An outside world whose registry file holds the two-host registry. *)
Definition withRegistry (env : Env) : Env :=
  mkEnv (lookPath env) (execRun env) (execOutput env) (sshLogin env) (sshRun env)
        (textAnswer env) (fun _ _ => Ok "registry")
        (writeFile env) (stdoutWrite env) (programRun env)
        (randomName env) (elapsed env) (configPath env) (IsValidIPAddress env)
        (yamlMarshal env) (yamlUnmarshalServer env).

End scenarios.

(** ** Vocabulary of the further statements *)

(** The upsert written by recursion on the slice: the first entry that
    carries the name of [x] is replaced, and [x] goes to the end when the
    slice has no such entry. *)
Fixpoint upsertList {A : Type} (nameOf : A -> string) (x : A) (l : list A) : list A :=
  match l with
  | [] => [x]
  | e :: rest =>
      if decide (nameOf e = nameOf x) then x :: rest else e :: upsertList nameOf x rest
  end.

(** The first entry of a slice that carries a name. *)
Fixpoint firstNamed {A : Type} (nameOf : A -> string) (name : string) (l : list A)
    : option A :=
  match l with
  | [] => None
  | e :: rest => if decide (nameOf e = name) then Some e else firstNamed nameOf name rest
  end.

(** Every action of the computation is of the kind [ok], whatever the
    trace it starts on. *)
Definition Confined {A : Type} (ok : Action -> bool) (m : M A) : Prop :=
  forall t, forallb ok (snd (m t)) = true.

(** Kinds of actions. *)
Definition isLocalTool (a : Action) : bool :=
  match a with
  | ALookPath _ => true
  | AExec name _ => bool_decide (name = "brew")
  | _ => false
  end.

Definition isLoginTo (server : string) (a : Action) : bool :=
  match a with
  | ALogin server' _ => bool_decide (server' = server)
  | _ => false
  end.

Definition isCommandOn (client : Client) (a : Action) : bool :=
  match a with
  | ARunCommand client' _ => bool_decide (client' = client)
  | _ => false
  end.

Definition isKeygen (a : Action) : bool :=
  match a with
  | AExec name args => bool_decide (name = "age-keygen" /\ args = [])
  | _ => false
  end.

Definition isWrite (a : Action) : bool :=
  match a with AWriteFile _ _ => true | _ => false end.

Definition isAsk (a : Action) : bool :=
  match a with AAsk _ _ => true | _ => false end.

(** What the six stages and the logins may do: local tools, logins and
    remote commands; no question, no file, no message. *)
Definition isStageAction (a : Action) : bool :=
  match a with
  | ALookPath _ | AExec _ _ | ALogin _ _ | ARunCommand _ _ => true
  | _ => false
  end.

(** Whether a byte occurs in a string. *)
Fixpoint hasByte (c : ascii) (s : string) : bool :=
  match s with
  | EmptyString => false
  | String a rest => bool_decide (a = c) || hasByte c rest
  end.

(** How often a byte occurs in a string. *)
Fixpoint countByte (c : ascii) (s : string) : nat :=
  match s with
  | EmptyString => 0
  | String a rest => ((if decide (a = c) then 1 else 0) + countByte c rest)%nat
  end.

(** What the worker does before its last step: stage actions and
    advances. *)
Definition isProgress (a : Action) : bool :=
  match a with
  | ASend render.NextStageMsg => true
  | _ => isStageAction a
  end.

(** The three ways a worker-like computation [c] ends, whatever the
    trace it starts on.  A stage fails: at most [n] advances, then the
    error message; the registry is the one the worker was given and no
    file is written.  The save fails: [n] advances, then at most the
    write of the registry, then the error message.  The save succeeds:
    [n] advances, the write of the registry, the completion message.  In
    the last two cases the registry is [register config s] for a Host
    Identity [s] that satisfies [P]. *)
Definition Ending (env : Env) (config : SidekickConfig) (P : SidekickServer -> Prop)
    (n : nat) (c : M SidekickConfig) : Prop :=
  forall t,
    (exists k msg pre,
        (k <= n)%nat /\
        c t = (config, pre ++ [ASend (render.ErrorMsg msg)]) /\
        events pre = replicate k render.NextStageMsg /\
        forallb isProgress pre = true) \/
    (exists s msg pre tail,
        P s /\
        c t = (initialize.register config s, pre ++ tail ++ [ASend (render.ErrorMsg msg)]) /\
        events pre = replicate n render.NextStageMsg /\
        forallb isProgress pre = true /\
        ((tail = [] /\ exists err, yamlMarshal env (initialize.register config s) = Err err) \/
         (exists data, tail = [AWriteFile (configPath env) data] /\
                       yamlMarshal env (initialize.register config s) = Ok data))) \/
    (exists s took data pre,
        P s /\
        yamlMarshal env (initialize.register config s) = Ok data /\
        c t = (initialize.register config s,
               pre ++ [AWriteFile (configPath env) data;
                       ASend (render.AllDoneMsg (initialize.doneMessage took))]) /\
        events pre = replicate n render.NextStageMsg /\
        forallb isProgress pre = true).

(** Every stage of the worker started on [t] has succeeded.  [pre] is
    what the worker has done by the end of the sixth stage: the actions
    of each stage, each run on the trace left by what came before it,
    with one advance right after each of the first five (the third
    after the login as sidekick).  [s] is the Host Identity as the
    fourth stage has left it. *)
Definition StagesPassed (env : Env) (catalog : Catalog) (server certEmail : string)
    (sidekickServer : SidekickServer) (t : Trace) (pre : list Action)
    (s : SidekickServer) : Prop :=
  exists (a1 a2 a3 a4 a5 a6 : list Action) (sshClient : Client) (loggedInUser : string)
         (sidekickClient : Client),
    let advance := ASend render.NextStageMsg in
    let login := ALogin server "sidekick" in
    let t1 := (t ++ a1) ++ [advance] in
    let t2 := (t1 ++ a2) ++ [advance] in
    let t3 := t2 ++ a3 in
    let t4 := (t3 ++ [login]) ++ [advance] in
    let t5 := (t4 ++ a4) ++ [advance] in
    let t6 := (t5 ++ a5) ++ [advance] in
    initialize.stage1LocalReqs env t = (None, a1) /\
    initialize.stage2Login env server t1 = (Ok (sshClient, loggedInUser), a2) /\
    initialize.stage3UserSetup env catalog sshClient loggedInUser t2 = (None, a3) /\
    sshLogin env t3 server "sidekick" = Ok sidekickClient /\
    initialize.stage4VPSSetup env catalog sidekickClient sidekickServer t4 =
      ((s, None), a4) /\
    initialize.stage5Docker env catalog sidekickClient t5 = (None, a5) /\
    initialize.stage6Traefik env catalog sidekickClient certEmail t6 = (None, a6) /\
    pre = a1 ++ advance :: a2 ++ advance :: a3 ++ login :: advance :: a4 ++
          advance :: a5 ++ advance :: a6.

(** The Host Identity [InitCmd.Run] hands to its worker (lines 195-213):
    the server the registry holds under the name, or a new one, with the
    address and the email of this run. *)
Definition startingIdentity (config : SidekickConfig) (name server certEmail : string)
    : SidekickServer :=
  initialize.setCertEmail
    (initialize.setAddress
       match utils.FindServer config name with
       | Ok found => found
       | Err _ => mkServer name server certEmail "" "" "" ""
       end server)
    certEmail.

(* ================================================================== *)
(** * Properties *)
(* ================================================================== *)

Section IndexLoop.
Context {A : Type} (nameOf : A -> string) (name : string).

  (** The loop answers -1 exactly when no element carries the name. *)
Lemma indexLoop_none (xs : list A) (i : Z) :
    0 <= i ->
    utils.indexLoop nameOf name xs i = -1 <->
    Forall (fun e => nameOf e <> name) xs.
  Proof.
    revert i. induction xs as [|e xs IH]; intros i Hi; simpl.
    - split; [constructor | reflexivity].
    - destruct (decide (nameOf e = name)) as [He|He].
      + split; [lia | intros HF; inversion HF; contradiction].
      + rewrite IH by lia. split.
        * intros HF; constructor; assumption.
        * intros HF; inversion HF; assumption.
  Qed.

  (** Otherwise it answers the position of the first element carrying it. *)
Lemma indexLoop_some (xs : list A) (i : Z) :
    0 <= i ->
    utils.indexLoop nameOf name xs i <> -1 ->
    exists (k : nat) (e : A),
      utils.indexLoop nameOf name xs i = i + Z.of_nat k /\
      xs !! k = Some e /\ nameOf e = name /\
      Forall (fun e' => nameOf e' <> name) (take k xs).
  Proof.
    revert i. induction xs as [|e xs IH]; intros i Hi; simpl.
    - intros H; contradiction.
    - destruct (decide (nameOf e = name)) as [He|He].
      + intros _. exists 0%nat, e. simpl. repeat split; try assumption; try lia.
        constructor.
      + intros H. destruct (IH (i + 1) ltac:(lia) H) as (k & e' & Hk & Hl & Hn & HF).
        exists (S k), e'. simpl. repeat split; try assumption; try lia.
        constructor; assumption.
  Qed.
End IndexLoop.

(** ** The registry's upserts *)

Section Upsert.
Context {A : Type} (nameOf : A -> string).

Lemma upserted_replace (x : A) (l : list A) (i : nat) (e : A) :
  l !! i = Some e -> nameOf e = nameOf x ->
  (forall j e', (j < i)%nat -> l !! j = Some e' -> nameOf e' <> nameOf x) ->
  upserted nameOf x l = <[i := x]> l.
Proof.
  intros Hi He Hfirst. unfold upserted.
  destruct (decide (utils.indexLoop nameOf (nameOf x) l 0 = -1)) as [Hnone|Hsome].
  - apply indexLoop_none in Hnone; [|lia].
    rewrite Forall_forall in Hnone.
    exfalso. apply (Hnone e); [|assumption].
    apply list_elem_of_lookup. eauto.
  - destruct (indexLoop_some nameOf (nameOf x) l 0 ltac:(lia) Hsome)
      as (k & e0 & Hk & Hl & Hn & HF).
    rewrite Hk. replace (Z.to_nat (0 + Z.of_nat k)) with k by lia.
    assert (k = i) as ->; [|reflexivity].
    destruct (Nat.lt_trichotomy k i) as [Hlt|[Heq|Hgt]]; [|assumption|].
    + exfalso. exact (Hfirst k e0 Hlt Hl Hn).
    + exfalso. rewrite Forall_forall in HF. apply (HF e); [|assumption].
      apply list_elem_of_lookup. exists i. rewrite lookup_take_lt by lia. assumption.
Qed.

Lemma upserted_append (x : A) (l : list A) :
  (forall e, e ∈ l -> nameOf e <> nameOf x) ->
  upserted nameOf x l = l ++ [x].
Proof.
  intros Hall. unfold upserted.
  destruct (decide (utils.indexLoop nameOf (nameOf x) l 0 = -1)) as [Hnone|Hsome];
    [reflexivity|].
  destruct (indexLoop_some nameOf (nameOf x) l 0 ltac:(lia) Hsome)
    as (k & e0 & _ & Hl & Hn & _).
  exfalso. apply (Hall e0); [|assumption].
  apply list_elem_of_lookup. eauto.
Qed.

Lemma upserted_length (x : A) (l : list A) :
  (length l <= length (upserted nameOf x l) <= S (length l))%nat.
Proof.
  unfold upserted.
  destruct (decide (utils.indexLoop nameOf (nameOf x) l 0 = -1)).
  - rewrite length_app. simpl. lia.
  - rewrite length_insert. lia.
Qed.

End Upsert.

Lemma AddOrReplaceServer_Servers (c : SidekickConfig) (s : SidekickServer) :
  Servers (utils.AddOrReplaceServer c s) = upserted Server_Name s (Servers c) /\
  Contexts (utils.AddOrReplaceServer c s) = Contexts c /\
  Version (utils.AddOrReplaceServer c s) = Version c /\
  CurrentContext (utils.AddOrReplaceServer c s) = CurrentContext c.
Proof.
  unfold utils.AddOrReplaceServer, upserted.
  destruct (decide (utils.indexLoop Server_Name (Server_Name s) (Servers c) 0 = -1));
    simpl; auto.
Qed.

Lemma AddOrReplaceContext_Contexts (c : SidekickConfig) (ctx : SidekickContext) :
  Contexts (utils.AddOrReplaceContext c ctx) = upserted Context_Name ctx (Contexts c) /\
  Servers (utils.AddOrReplaceContext c ctx) = Servers c /\
  Version (utils.AddOrReplaceContext c ctx) = Version c /\
  CurrentContext (utils.AddOrReplaceContext c ctx) = CurrentContext c.
Proof.
  unfold utils.AddOrReplaceContext, upserted.
  destruct (decide (utils.indexLoop Context_Name (Context_Name ctx) (Contexts c) 0 = -1));
    simpl; auto.
Qed.

Lemma upserted_semantics {A : Type} (nameOf : A -> string) (x : A) (l : list A) :
  UpsertSemantics nameOf x l (upserted nameOf x l).
Proof.
  repeat split.
  - rewrite (upserted_replace nameOf x l i e) by assumption.
    apply list_lookup_insert_eq. eapply lookup_lt_Some; eassumption.
  - rewrite (upserted_replace nameOf x l i e) by assumption. apply length_insert.
  - intros j Hj. rewrite (upserted_replace nameOf x l i e) by assumption.
    apply list_lookup_insert_ne. congruence.
  - apply upserted_append; assumption.
  - rewrite upserted_append by assumption. rewrite length_app. simpl. lia.
  - apply upserted_length.
  - apply upserted_length.
Qed.

(** C2.  [AddOrReplaceServer] and [AddOrReplaceContext] are upserts by
    name: when an entry carries the name, the first such entry is
    replaced at its own index, the length is kept and every other index
    holds what it held; when no entry carries the name, the value is
    appended at the end and the length grows by one; the length never
    changes by more than one, and the rest of the registry is untouched. *)
Theorem upsert_semantics (c : SidekickConfig) (s : SidekickServer) (ctx : SidekickContext) :
  (UpsertSemantics Server_Name s (Servers c) (Servers (utils.AddOrReplaceServer c s)) /\
   Contexts (utils.AddOrReplaceServer c s) = Contexts c /\
   Version (utils.AddOrReplaceServer c s) = Version c /\
   CurrentContext (utils.AddOrReplaceServer c s) = CurrentContext c) /\
  (UpsertSemantics Context_Name ctx (Contexts c) (Contexts (utils.AddOrReplaceContext c ctx)) /\
   Servers (utils.AddOrReplaceContext c ctx) = Servers c /\
   Version (utils.AddOrReplaceContext c ctx) = Version c /\
   CurrentContext (utils.AddOrReplaceContext c ctx) = CurrentContext c).
Proof.
  split.
  - destruct (AddOrReplaceServer_Servers c s) as (-> & HC & HV & HK).
    split; [apply upserted_semantics | auto].
  - destruct (AddOrReplaceContext_Contexts c ctx) as (-> & HS & HV & HK).
    split; [apply upserted_semantics | auto].
Qed.

Lemma upsert_semantics_witness :
  let moved := mkServer "prod" "192.0.2.99" "ops@example.org" "debian" "linux/arm64"
                        "age1prod" "AGE-SECRET-KEY-1PROD" in
  let added := mkContext "staging" "prod" in
  Servers (utils.AddOrReplaceServer hosts.twoHosts moved) !! 1%nat = Some moved /\
  length (Servers (utils.AddOrReplaceServer hosts.twoHosts moved)) = 2%nat /\
  Servers (utils.AddOrReplaceServer hosts.twoHosts moved) !! 0%nat = Some hosts.keyedServer /\
  Contexts (utils.AddOrReplaceContext hosts.twoHosts added) =
    [mkContext "box1" "box1"; mkContext "prod" "prod"; added].
Proof.
  intros moved added.
  destruct (upsert_semantics hosts.twoHosts moved added)
    as [[(Hreplace & _ & _) _] [(_ & Happend & _) _]].
  destruct (Hreplace 1%nat
              (mkServer "prod" "192.0.2.10" "ops@example.org" "debian" "linux/arm64"
                        "age1prod" "AGE-SECRET-KEY-1PROD") eq_refl eq_refl)
    as (Hat & Hlen & Hothers).
  { intros j e' Hj He'. destruct j as [|j]; [|lia].
    injection He' as <-. discriminate. }
  split; [exact Hat|]. split; [exact Hlen|].
  split; [exact (Hothers 0%nat ltac:(discriminate))|].
  apply Happend. intros e He.
  repeat (apply elem_of_cons in He as [->|He]; [discriminate|]). inversion He.
Defined.

(** ** The monad *)

Lemma bind_run {A B : Type} (m : M A) (k : A -> M B) (t : Trace) :
  (m ≫= k) t = (fst (k (fst (m t)) (t ++ snd (m t))),
                snd (m t) ++ snd (k (fst (m t)) (t ++ snd (m t)))).
Proof. reflexivity. Qed.

Lemma ret_run {A : Type} (a : A) (t : Trace) : (mret a : M A) t = (a, []).
Proof. reflexivity. Qed.

Lemma perform_run {A : Type} (a : Action) (oracle : Trace -> A) (t : Trace) :
  perform a oracle t = (oracle t, [a]).
Proof. reflexivity. Qed.

(** Unfolds the monad's operations and the primitive actions, so that a
    computation applied to a trace reduces to its value and actions. *)
Ltac run_monad :=
  unfold mbind, M_bind, bind, mret, M_ret, ret,
         utils.Login, utils.RunCommand, initialize.LookPath, initialize.CommandRun,
         initialize.CommandOutput, initialize.Send, initialize.Since, perform;
  simpl.

Lemma events_app (l1 l2 : list Action) : events (l1 ++ l2) = events l1 ++ events l2.
Proof.
  induction l1 as [|a l1 IH]; simpl; [reflexivity|].
  destruct a; simpl; rewrite ?IH; reflexivity.
Qed.

Lemma RunCommandsWithTUIHook_only_commands env client commands t :
  forallb isRunCommand (snd (utils.RunCommandsWithTUIHook env client commands t)) = true.
Proof.
  revert t. induction commands as [|c cs IH]; intros t; simpl; [reflexivity|].
  destruct (RunErr (sshRun env t client c)); simpl; [reflexivity | apply IH].
Qed.

(** ** Login *)

(** C3.  [stage2Login] logs in as root first.  When root authenticates it
    returns that session with the name root and makes no further attempt;
    when root is refused it logs in as sidekick next, and returns that
    session with the name sidekick when it authenticates; the connection
    error is returned only after both attempts, in that order, failed. *)
Theorem login_priority (env : Env) (server : string) (t : Trace) :
  match sshLogin env t server "root" with
  | Ok client =>
      initialize.stage2Login env server t = (Ok (client, "root"), [ALogin server "root"])
  | Err _ =>
      match sshLogin env (t ++ [ALogin server "root"]) server "sidekick" with
      | Ok client =>
          initialize.stage2Login env server t =
          (Ok (client, "sidekick"), [ALogin server "root"; ALogin server "sidekick"])
      | Err _ =>
          initialize.stage2Login env server t =
          (Err "unable to establish SSH connection",
           [ALogin server "root"; ALogin server "sidekick"])
      end
  end.
Proof.
  unfold initialize.stage2Login. simpl. run_monad.
  destruct (sshLogin env t server "root") as [client|msg]; simpl; [reflexivity|].
  destruct (sshLogin env (t ++ [ALogin server "root"]) server "sidekick"); reflexivity.
Qed.

Example login_priority_root_refused :
  let env := hosts.host hosts.freshAnswers true in
  let refusing :=
    mkEnv (lookPath env) (execRun env) (execOutput env)
          (fun _ _ user => if decide (user = "root") then Err "ssh: handshake failed" else Ok 2%nat)
          (sshRun env) (textAnswer env) (readFile env) (writeFile env) (stdoutWrite env)
          (programRun env) (randomName env) (elapsed env) (configPath env)
          (IsValidIPAddress env) (yamlMarshal env) (yamlUnmarshalServer env) in
  initialize.stage2Login refusing "203.0.113.5" [] =
  (Ok (2%nat, "sidekick"), [ALogin "203.0.113.5" "root"; ALogin "203.0.113.5" "sidekick"]).
Proof. reflexivity. Qed.

(** ** The probes of the stages *)

(** C9.  When the probe of the container-runtime stage, or of the
    reverse-proxy stage, runs and its output is exactly 1, and when the
    existence check of the user stage runs and prints a non-empty user
    id, the stage performs the probe and nothing else (no command of its
    batch is run) and returns without error. *)
Theorem probe_short_circuits (env : Env) (catalog : Catalog) (client : Client)
    (loggedInUser email : string) (t : Trace) :
  (RunErr (sshRun env t client initialize.dockerProbe) = None ->
   Output (sshRun env t client initialize.dockerProbe) = "1" ->
   initialize.stage5Docker env catalog client t =
   (None, [ARunCommand client initialize.dockerProbe])) /\
  (RunErr (sshRun env t client initialize.traefikProbe) = None ->
   Output (sshRun env t client initialize.traefikProbe) = "1" ->
   initialize.stage6Traefik env catalog client email t =
   (None, [ARunCommand client initialize.traefikProbe])) /\
  (RunErr (sshRun env t client initialize.userProbe) = None ->
   Output (sshRun env t client initialize.userProbe) <> "" ->
   initialize.stage3UserSetup env catalog client loggedInUser t =
   (None, [ARunCommand client initialize.userProbe])).
Proof.
  repeat split.
  - intros Herr Hout. unfold initialize.stage5Docker. run_monad.
    rewrite Herr, Hout. reflexivity.
  - intros Herr Hout. unfold initialize.stage6Traefik. run_monad.
    rewrite Herr, Hout. reflexivity.
  - intros Herr Hout. unfold initialize.stage3UserSetup. run_monad.
    rewrite Herr.
    destruct (decide (Output (sshRun env t client initialize.userProbe) = ""));
      [contradiction | reflexivity].
Qed.

Lemma probe_short_circuits_witness :
  initialize.stage5Docker hosts.provisioned hosts.catalog 2%nat [] =
    (None, [ARunCommand 2%nat initialize.dockerProbe]) /\
  initialize.stage6Traefik hosts.provisioned hosts.catalog 2%nat "a@b.com" [] =
    (None, [ARunCommand 2%nat initialize.traefikProbe]) /\
  initialize.stage3UserSetup hosts.provisioned hosts.catalog 1%nat "root" [] =
    (None, [ARunCommand 1%nat initialize.userProbe]).
Proof.
  split; [|split].
  - apply (probe_short_circuits hosts.provisioned hosts.catalog 2%nat "root" "a@b.com" []);
      reflexivity.
  - apply (probe_short_circuits hosts.provisioned hosts.catalog 2%nat "root" "a@b.com" []);
      reflexivity.
  - apply (probe_short_circuits hosts.provisioned hosts.catalog 1%nat "root" "a@b.com" []);
      [reflexivity | discriminate].
Defined.

(** ** Host setup *)

Lemma parseKeygen_frame (outStr : string) (server : SidekickServer) :
  Server_PlatformId (initialize.parseKeygen outStr server) = Server_PlatformId server /\
  Server_Distro (initialize.parseKeygen outStr server) = Server_Distro server /\
  Server_Name (initialize.parseKeygen outStr server) = Server_Name server /\
  Server_Address (initialize.parseKeygen outStr server) = Server_Address server /\
  Server_CertEmail (initialize.parseKeygen outStr server) = Server_CertEmail server.
Proof.
  unfold initialize.parseKeygen.
  destruct (decide (3 <= length (strings.Split outStr "010"))%nat);
    [|repeat split; reflexivity].
  destruct (decide (1 < length (strings.Split (nth 1 (strings.Split outStr "010") "") ":"))%nat);
    simpl; repeat split; reflexivity.
Qed.

Lemma detectPlatform_frame (arch : string) (server : SidekickServer) :
  Server_PublicKey (initialize.detectPlatform arch server) = Server_PublicKey server /\
  Server_SecretKey (initialize.detectPlatform arch server) = Server_SecretKey server /\
  Server_Distro (initialize.detectPlatform arch server) = Server_Distro server /\
  Server_Name (initialize.detectPlatform arch server) = Server_Name server /\
  Server_Address (initialize.detectPlatform arch server) = Server_Address server /\
  Server_CertEmail (initialize.detectPlatform arch server) = Server_CertEmail server.
Proof.
  unfold initialize.detectPlatform.
  destruct (decide (arch = "x86_64")), (decide (arch = "aarch64"));
    simpl; repeat split; reflexivity.
Qed.

Lemma detectPlatform_PlatformId (arch : string) (server : SidekickServer) :
  Server_PlatformId (initialize.detectPlatform arch server) =
  if decide (arch = "x86_64") then "linux/amd64"
  else if decide (arch = "aarch64") then "linux/arm64"
  else Server_PlatformId server.
Proof.
  unfold initialize.detectPlatform.
  destruct (decide (arch = "x86_64")) as [H1|H1], (decide (arch = "aarch64")) as [H2|H2];
    simpl; try reflexivity.
  rewrite H1 in H2. discriminate.
Qed.

(** The Host Identity [stage4VPSSetup] leaves behind is the detected one,
    possibly with a parsed keypair. *)
Lemma stage4VPSSetup_server (env : Env) (catalog : Catalog) (client : Client)
    (server : SidekickServer) (t : Trace) :
  let detected :=
    initialize.detectPlatform
      (Output (sshRun env (t ++ [ARunCommand client initialize.distroProbe]) client
                      initialize.archProbe))
      (initialize.setDistro server
         (Output (sshRun env t client initialize.distroProbe))) in
  let server' := fst (fst (initialize.stage4VPSSetup env catalog client server t)) in
  server' = detected \/
  ((Server_PublicKey detected = "" \/ Server_SecretKey detected = "") /\
   exists outStr, server' = initialize.parseKeygen outStr detected).
Proof.
  unfold initialize.stage4VPSSetup. run_monad.
  match goal with |- context [utils.RunCommandsWithTUIHook ?e ?c ?l ?t'] =>
    destruct (utils.RunCommandsWithTUIHook e c l t') as [[err|] l3] end; simpl.
  - left; reflexivity.
  - match goal with |- context [decide (?P \/ ?Q)] => destruct (decide (P \/ Q)) as [Hk|Hk] end;
      simpl.
    + match goal with |- context [execOutput ?e ?t' ?n ?a] =>
        destruct (execOutput e t' n a) as [outStr|msg] end; simpl.
      * right. split; [exact Hk | eexists; reflexivity].
      * left; reflexivity.
    + left; reflexivity.
Qed.

Lemma only_commands_no_exec (l : list Action) :
  forallb isRunCommand l = true -> forall name args, AExec name args ∉ l.
Proof.
  intros Hall name args Hin.
  rewrite forallb_forall in Hall.
  apply list_elem_of_In in Hin. specialize (Hall _ Hin). discriminate.
Qed.

(** C10.  [stage4VPSSetup] sets PlatformId to linux/amd64 when the output
    of the architecture probe is exactly x86_64, to linux/arm64 when it is
    exactly aarch64, and leaves it as it was for every other output;
    this holds on the error paths of the stage as well. *)
Theorem platform_detection (env : Env) (catalog : Catalog) (client : Client)
    (server : SidekickServer) (t : Trace) :
  let arch := Output (sshRun env (t ++ [ARunCommand client initialize.distroProbe]) client
                             initialize.archProbe) in
  let server' := fst (fst (initialize.stage4VPSSetup env catalog client server t)) in
  Server_PlatformId server' =
    (if decide (arch = "x86_64") then "linux/amd64"
     else if decide (arch = "aarch64") then "linux/arm64"
     else Server_PlatformId server) /\
  (arch <> "x86_64" -> arch <> "aarch64" -> Server_PlatformId server' = Server_PlatformId server).
Proof.
  intros arch server'.
  assert (Server_PlatformId server' =
          if decide (arch = "x86_64") then "linux/amd64"
          else if decide (arch = "aarch64") then "linux/arm64"
          else Server_PlatformId server) as Heq.
  { destruct (stage4VPSSetup_server env catalog client server t) as [H|[_ [outStr H]]];
      fold server' in H; fold arch in H; rewrite H.
    - rewrite detectPlatform_PlatformId. reflexivity.
    - destruct (parseKeygen_frame outStr
                  (initialize.detectPlatform arch
                     (initialize.setDistro server
                        (Output (sshRun env t client initialize.distroProbe)))))
        as (-> & _).
      rewrite detectPlatform_PlatformId. reflexivity. }
  split; [exact Heq|].
  intros H1 H2. rewrite Heq.
  destruct (decide (arch = "x86_64")); [contradiction|].
  destruct (decide (arch = "aarch64")); [contradiction|reflexivity].
Qed.

Example platform_detection_riscv :
  Server_PlatformId
    (fst (fst (initialize.stage4VPSSetup hosts.probeFails hosts.catalog 2%nat
                 hosts.keyedServer []))) = "linux/amd64".
Proof. reflexivity. Qed.

(** C5.  A Host Identity that enters [stage4VPSSetup] with a non-empty
    PublicKey and a non-empty SecretKey leaves it with both fields as
    they were, whether the stage fails or not, and the stage runs no
    local process: age-keygen is not invoked. *)
Theorem keypair_preserved (env : Env) (catalog : Catalog) (client : Client)
    (server : SidekickServer) (t : Trace) :
  Server_PublicKey server <> "" ->
  Server_SecretKey server <> "" ->
  let r := initialize.stage4VPSSetup env catalog client server t in
  Server_PublicKey (fst (fst r)) = Server_PublicKey server /\
  Server_SecretKey (fst (fst r)) = Server_SecretKey server /\
  (forall name args, AExec name args ∉ snd r).
Proof.
  intros Hpub Hsec r. subst r.
  unfold initialize.stage4VPSSetup. run_monad.
  set (detected := initialize.detectPlatform _ _).
  destruct (detectPlatform_frame
              (Output (sshRun env (t ++ [ARunCommand client initialize.distroProbe]) client
                              initialize.archProbe))
              (initialize.setDistro server
                 (Output (sshRun env t client initialize.distroProbe))))
    as (Hp & Hs & _).
  fold detected in Hp, Hs. simpl in Hp, Hs.
  match goal with |- context [utils.RunCommandsWithTUIHook ?e ?c ?l ?t'] =>
    pose proof (RunCommandsWithTUIHook_only_commands e c l t') as Hcmds;
    destruct (utils.RunCommandsWithTUIHook e c l t') as [[err|] l3] end; simpl in *.
  - repeat split; try assumption.
    apply only_commands_no_exec. simpl. rewrite app_nil_r. exact Hcmds.
  - destruct (decide (Server_PublicKey detected = "" \/ Server_SecretKey detected = ""))
      as [[Hk|Hk]|Hk]; simpl.
    + congruence.
    + congruence.
    + repeat split; try assumption.
      apply only_commands_no_exec. simpl. rewrite app_nil_r. exact Hcmds.
Qed.

Lemma keypair_preserved_witness :
  let r := initialize.stage4VPSSetup hosts.fresh hosts.catalog 2%nat hosts.keyedServer [] in
  Server_PublicKey (fst (fst r)) = "age1old" /\
  Server_SecretKey (fst (fst r)) = "AGE-SECRET-KEY-1OLD" /\
  (forall name args, AExec name args ∉ snd r).
Proof.
  apply (keypair_preserved hosts.fresh hosts.catalog 2%nat hosts.keyedServer []);
    discriminate.
Defined.

(** ** The worker of the init command *)

Lemma quiet_ret {A : Type} (a : A) : Quiet (mret a : M A).
Proof. intros t. reflexivity. Qed.

Lemma quiet_perform {A : Type} (a : Action) (oracle : Trace -> A) :
  events [a] = [] -> Quiet (perform a oracle).
Proof. intros H t. exact H. Qed.

Lemma quiet_bind {A B : Type} (m : M A) (k : A -> M B) :
  Quiet m -> (forall a, Quiet (k a)) -> Quiet (m ≫= k).
Proof.
  intros Hm Hk t. rewrite bind_run. simpl. rewrite events_app, Hm, Hk. reflexivity.
Qed.

Lemma quiet_RunCommandsWithTUIHook env client commands :
  Quiet (utils.RunCommandsWithTUIHook env client commands).
Proof.
  induction commands as [|c cs IH]; simpl; [apply quiet_ret|].
  apply quiet_bind; [apply quiet_perform; reflexivity|].
  intros r. destruct (RunErr r); [apply quiet_ret | exact IH].
Qed.

(** Goes through a computation built from binds, returns, case
    distinctions and actions other than [ASend]. *)
Ltac quiet :=
  repeat first
    [ apply quiet_ret
    | apply quiet_RunCommandsWithTUIHook
    | apply quiet_perform; reflexivity
    | apply quiet_bind; [|intros ?]
    | match goal with
      | |- Quiet (match ?x with _ => _ end) => destruct x
      | |- Quiet (if ?b then _ else _) => destruct b
      end
    | progress cbv zeta ].

Lemma quiet_Login env server user : Quiet (utils.Login env server user).
Proof. unfold utils.Login. quiet. Qed.

Lemma quiet_Save env c path : Quiet (utils.Save env c path).
Proof. unfold utils.Save. quiet. Qed.

Lemma quiet_RunStage env client stage : Quiet (utils.RunStage env client stage).
Proof. unfold utils.RunStage. quiet. Qed.

Lemma quiet_stage1LocalReqs env : Quiet (initialize.stage1LocalReqs env).
Proof.
  unfold initialize.stage1LocalReqs, initialize.ensureTool, initialize.LookPath,
    initialize.CommandRun. quiet.
Qed.

Lemma quiet_stage2Login env server : Quiet (initialize.stage2Login env server).
Proof. unfold initialize.stage2Login. simpl. unfold utils.Login. quiet. Qed.

Lemma quiet_stage3UserSetup env catalog client user :
  Quiet (initialize.stage3UserSetup env catalog client user).
Proof.
  unfold initialize.stage3UserSetup, utils.RunCommand.
  apply quiet_bind; [apply quiet_perform; reflexivity|]. intros r. cbv zeta.
  match goal with |- Quiet (if ?b then _ else _) => destruct b end;
    [apply quiet_RunStage | apply quiet_ret].
Qed.

Lemma quiet_stage4VPSSetup env catalog client server :
  Quiet (initialize.stage4VPSSetup env catalog client server).
Proof.
  unfold initialize.stage4VPSSetup, utils.RunCommand, initialize.CommandOutput. quiet.
Qed.

Lemma quiet_stage5Docker env catalog client :
  Quiet (initialize.stage5Docker env catalog client).
Proof.
  unfold initialize.stage5Docker, utils.RunCommand.
  apply quiet_bind; [apply quiet_perform; reflexivity|]. intros r. cbv zeta.
  match goal with |- Quiet (if ?b then _ else _) => destruct b end; quiet.
Qed.

Lemma quiet_stage6Traefik env catalog client email :
  Quiet (initialize.stage6Traefik env catalog client email).
Proof.
  unfold initialize.stage6Traefik, utils.RunCommand.
  apply quiet_bind; [apply quiet_perform; reflexivity|]. intros r. cbv zeta.
  match goal with |- Quiet (if ?b then _ else _) => destruct b end; quiet.
Qed.

Section Outcomes.
Variable env : Env.
Variable config : SidekickConfig.
Variable P : SidekickServer -> Prop.

Lemma outcome_fail (n : nat) (msg : string) (config' : SidekickConfig) :
  Outcome env config P n (initialize.Send (render.ErrorMsg msg);; mret config').
Proof.
  intros t. left. exists 0%nat, msg, []. repeat split. lia.
Qed.

Lemma outcome_advance (n : nat) (c : M SidekickConfig) :
  Outcome env config P n c ->
  Outcome env config P (S n) (initialize.Send render.NextStageMsg;; c).
Proof.
  intros Hc t. rewrite bind_run. simpl.
  destruct (Hc (t ++ [ASend render.NextStageMsg]))
    as [(k & msg & pre & Hk & Hs & He)|(took & data & s & pre & HP & Hy & Hf & Hs & He)].
  - left. exists (S k), msg, (ASend render.NextStageMsg :: pre).
    rewrite Hs. simpl. rewrite He. repeat split. lia.
  - right. exists took, data, s, (ASend render.NextStageMsg :: pre).
    rewrite Hs. simpl. rewrite He. repeat split; assumption.
Qed.

Lemma outcome_bind {A : Type} (n : nat) (m : M A) (k : A -> M SidekickConfig) :
  Quiet m ->
  (forall t, Outcome env config P n (k (fst (m t)))) ->
  Outcome env config P n (m ≫= k).
Proof.
  intros Hm Hk t. rewrite bind_run. simpl.
  destruct (Hk t (t ++ snd (m t)))
    as [(j & msg & pre & Hj & Hs & He)|(took & data & s & pre & HP & Hy & Hf & Hs & He)].
  - left. exists j, msg, (snd (m t) ++ pre).
    rewrite Hs, app_assoc, events_app, Hm, He. repeat split. assumption.
  - right. exists took, data, s, (snd (m t) ++ pre).
    rewrite Hs, app_assoc, events_app, Hm, He. repeat split; assumption.
Qed.

(** The last step of the worker: the registry is saved, and the
    completion message is sent when that succeeded. *)
Lemma outcome_save (s : SidekickServer) :
  P s ->
  Outcome env config P 0
    (es ← utils.Save env (initialize.register config s) (configPath env);
     match es with
     | Some err =>
         initialize.Send (render.ErrorMsg ("Failed to write config: " +:+ err));;
         mret (initialize.register config s)
     | None =>
         took ← initialize.Since env;
         initialize.Send (render.AllDoneMsg (initialize.doneMessage took));;
         mret (initialize.register config s)
     end).
Proof.
  intros HP t. unfold utils.Save.
  destruct (yamlMarshal env (initialize.register config s)) as [data|err] eqn:Hy.
  - run_monad.
    destruct (writeFile env t (configPath env) data) as [err|] eqn:Hw; simpl.
    + left. exists 0%nat, ("Failed to write config: " +:+ err),
        [AWriteFile (configPath env) data].
      repeat split. lia.
    + right. eexists _, data, s, []. repeat split; try eassumption; reflexivity.
  - run_monad. left. exists 0%nat, ("Failed to write config: " +:+ err), [].
    repeat split. lia.
Qed.

End Outcomes.

Lemma stage4VPSSetup_identity (env : Env) (catalog : Catalog) (client : Client)
    (server : SidekickServer) (t : Trace) :
  let server' := fst (fst (initialize.stage4VPSSetup env catalog client server t)) in
  Server_Name server' = Server_Name server /\
  Server_Address server' = Server_Address server /\
  Server_CertEmail server' = Server_CertEmail server.
Proof.
  intros server'.
  destruct (stage4VPSSetup_server env catalog client server t) as [H|[_ [outStr H]]];
    fold server' in H; rewrite H.
  - match goal with |- context [initialize.detectPlatform ?a ?s] =>
      destruct (detectPlatform_frame a s) as (_ & _ & _ & -> & -> & ->) end.
    repeat split.
  - match goal with |- context [initialize.parseKeygen ?o ?s] =>
      destruct (parseKeygen_frame o s) as (_ & _ & -> & -> & ->) end.
    match goal with |- context [initialize.detectPlatform ?a ?s] =>
      destruct (detectPlatform_frame a s) as (_ & _ & _ & -> & -> & ->) end.
    repeat split.
Qed.

(** Case distinction on the result the worker looks at next. *)
Ltac split_result :=
  match goal with
  | |- Outcome _ _ _ _ (match ?x with _ => _ end) => destruct x
  end; cbv beta iota.

(** The worker sends at most five advances and then an error as its last
    action, or exactly five advances followed by the write of the
    registry and the completion message. *)
Lemma worker_outcome (env : Env) (catalog : Catalog) (config : SidekickConfig)
    (server certEmail : string) (sidekickServer : SidekickServer) :
  Outcome env config
    (fun s => Server_Name s = Server_Name sidekickServer /\
              Server_Address s = Server_Address sidekickServer /\
              Server_CertEmail s = Server_CertEmail sidekickServer)
    5 (initialize.worker env catalog config server certEmail sidekickServer).
Proof.
  unfold initialize.worker.
  apply outcome_bind; [apply quiet_stage1LocalReqs|]. intros t1.
  split_result; [apply outcome_fail|].
  apply outcome_advance.
  apply outcome_bind; [apply quiet_stage2Login|]. intros t2.
  split_result; [split_result|apply outcome_fail].
  apply outcome_advance.
  apply outcome_bind; [apply quiet_stage3UserSetup|]. intros t3.
  split_result; [apply outcome_fail|].
  apply outcome_bind; [apply quiet_Login|]. intros t3'.
  split_result; [|apply outcome_fail].
  apply outcome_advance.
  apply outcome_bind; [apply quiet_stage4VPSSetup|]. intros t4. cbv beta zeta.
  match goal with |- context [initialize.stage4VPSSetup _ _ ?c _ _] =>
    pose proof (stage4VPSSetup_identity env catalog c sidekickServer t4) as Hid end.
  cbv zeta in Hid.
  split_result; [apply outcome_fail|].
  apply outcome_advance.
  apply outcome_bind; [apply quiet_stage5Docker|]. intros t5.
  split_result; [apply outcome_fail|].
  apply outcome_advance.
  apply outcome_bind; [apply quiet_stage6Traefik|]. intros t6.
  split_result; [apply outcome_fail|].
  apply outcome_save. exact Hid.
Qed.

(** The actions of the worker, stage by stage.  Each stage is run on
    the trace left by what came before it; a stage that fails is
    followed at once by the error message of its phase, which ends the
    worker; each of the first five stages that succeeds is followed at
    once by one advance (the third after the login as sidekick that
    closes it); the sixth is followed by the write of the registry and
    the completion message, with no advance in between. *)
Lemma worker_actions (env : Env) (catalog : Catalog) (config : SidekickConfig)
    (server certEmail : string) (sidekickServer : SidekickServer) (t : Trace) :
  let advance := ASend render.NextStageMsg in
  let failure := fun phase err => [ASend (render.ErrorMsg (phase +:+ err))] in
  let login := ALogin server "sidekick" in
  let r1 := initialize.stage1LocalReqs env t in
  snd (initialize.worker env catalog config server certEmail sidekickServer t) =
  snd r1 ++
  match fst r1 with
  | Some err => failure "Local requirements check failed: " err
  | None =>
  let t1 := (t ++ snd r1) ++ [advance] in
  let r2 := initialize.stage2Login env server t1 in
  advance :: snd r2 ++
  match fst r2 with
  | Err err => failure "Login failed: " err
  | Ok (sshClient, loggedInUser) =>
  let t2 := (t1 ++ snd r2) ++ [advance] in
  let r3 := initialize.stage3UserSetup env catalog sshClient loggedInUser t2 in
  advance :: snd r3 ++
  match fst r3 with
  | Some err => failure "User setup failed: " err
  | None =>
  let t3 := t2 ++ snd r3 in
  login ::
  match sshLogin env t3 server "sidekick" with
  | Err err => failure "Failed to login as sidekick: " err
  | Ok sidekickClient =>
  let t4 := (t3 ++ [login]) ++ [advance] in
  let r4 := initialize.stage4VPSSetup env catalog sidekickClient sidekickServer t4 in
  advance :: snd r4 ++
  match snd (fst r4) with
  | Some err => failure "VPS setup failed: " err
  | None =>
  let t5 := (t4 ++ snd r4) ++ [advance] in
  let r5 := initialize.stage5Docker env catalog sidekickClient t5 in
  advance :: snd r5 ++
  match fst r5 with
  | Some err => failure "Docker setup failed: " err
  | None =>
  let t6 := (t5 ++ snd r5) ++ [advance] in
  let r6 := initialize.stage6Traefik env catalog sidekickClient certEmail t6 in
  advance :: snd r6 ++
  match fst r6 with
  | Some err => failure "Traefik setup failed: " err
  | None =>
  let t7 := t6 ++ snd r6 in
  let saved := utils.Save env (initialize.register config (fst (fst r4)))
                 (configPath env) t7 in
  snd saved ++
  match fst saved with
  | Some err => failure "Failed to write config: " err
  | None =>
      [ASend (render.AllDoneMsg (initialize.doneMessage (elapsed env (t7 ++ snd saved))))]
  end end end end end end end end.
Proof.
  intros advance failure login r1. subst advance failure login r1.
  unfold initialize.worker.
  repeat
    match goal with
    | |- _ = [ASend _] => reflexivity
    | |- snd (match ?x with _ => _ end _) = _ =>
        lazymatch x with
        | snd (fst ?r) => destruct r as [[? ?] ?]; cbn [fst snd]
        | fst ?r => destruct r as [? ?]; cbn [fst snd]
        | _ => first [destruct x as [[? ?]|?] | destruct x]
        end
    | |- snd ((_ ≫= _) _) = _ =>
        rewrite bind_run; cbn [fst snd app initialize.Send utils.Login perform]
    | |- _ :: _ = _ :: _ => f_equal
    | |- _ ++ _ = _ ++ _ => f_equal
    end.
Qed.

Lemma sent_in_events (m : render.Msg) (l : list Action) :
  ASend m ∈ l <-> m ∈ events l.
Proof.
  induction l as [|a l IH]; simpl.
  - split; intros H; inversion H.
  - rewrite elem_of_cons, IH.
    destruct a; simpl; rewrite ?elem_of_cons;
      try (split; [intros [H|H]; [discriminate | exact H] | intros H; right; exact H]).
    split; (intros [H|H]; [left; congruence | right; exact H]).
Qed.

Lemma advances_replicate (k : nat) (tail : list render.Msg) :
  advances (replicate k render.NextStageMsg ++ tail) = (k + advances tail)%nat.
Proof. induction k as [|k IH]; simpl; [reflexivity | rewrite IH; reflexivity]. Qed.

Lemma not_in_advances (k : nat) (m : render.Msg) :
  m <> render.NextStageMsg -> m ∉ replicate k render.NextStageMsg.
Proof. intros Hm Hin. apply elem_of_replicate in Hin as [-> _]. contradiction. Qed.

(** C1, as amended.  The worker of the init command runs its stages in
    order, each on the trace left by what came before it.  Each of the
    first five stages that succeeds is followed at once by exactly one
    [NextStageMsg] (the third after the login as sidekick that closes
    it); the sixth stage is followed by the write of the registry and
    then by exactly one [AllDoneMsg], with no [NextStageMsg] in between.
    A stage, the login as sidekick or the save that fails is followed at
    once by exactly one [ErrorMsg] that names its phase and carries its
    error, and nothing is done after it.  The stages, the login and the
    save send no message themselves.  So the stream is five
    [NextStageMsg] and then one [AllDoneMsg] on a run that succeeds, at
    most five [NextStageMsg] and then one [ErrorMsg] on a run that
    fails, and the terminal message is the last action of the worker. *)
Theorem worker_event_stream (env : Env) (catalog : Catalog) (config : SidekickConfig)
    (server certEmail : string) (sidekickServer : SidekickServer) (t : Trace) :
  let acts := snd (initialize.worker env catalog config server certEmail sidekickServer t) in
  let advance := ASend render.NextStageMsg in
  let failure := fun phase err => [ASend (render.ErrorMsg (phase +:+ err))] in
  let login := ALogin server "sidekick" in
  let r1 := initialize.stage1LocalReqs env t in
  (acts =
   snd r1 ++
   match fst r1 with
   | Some err => failure "Local requirements check failed: " err
   | None =>
   let t1 := (t ++ snd r1) ++ [advance] in
   let r2 := initialize.stage2Login env server t1 in
   advance :: snd r2 ++
   match fst r2 with
   | Err err => failure "Login failed: " err
   | Ok (sshClient, loggedInUser) =>
   let t2 := (t1 ++ snd r2) ++ [advance] in
   let r3 := initialize.stage3UserSetup env catalog sshClient loggedInUser t2 in
   advance :: snd r3 ++
   match fst r3 with
   | Some err => failure "User setup failed: " err
   | None =>
   let t3 := t2 ++ snd r3 in
   login ::
   match sshLogin env t3 server "sidekick" with
   | Err err => failure "Failed to login as sidekick: " err
   | Ok sidekickClient =>
   let t4 := (t3 ++ [login]) ++ [advance] in
   let r4 := initialize.stage4VPSSetup env catalog sidekickClient sidekickServer t4 in
   advance :: snd r4 ++
   match snd (fst r4) with
   | Some err => failure "VPS setup failed: " err
   | None =>
   let t5 := (t4 ++ snd r4) ++ [advance] in
   let r5 := initialize.stage5Docker env catalog sidekickClient t5 in
   advance :: snd r5 ++
   match fst r5 with
   | Some err => failure "Docker setup failed: " err
   | None =>
   let t6 := (t5 ++ snd r5) ++ [advance] in
   let r6 := initialize.stage6Traefik env catalog sidekickClient certEmail t6 in
   advance :: snd r6 ++
   match fst r6 with
   | Some err => failure "Traefik setup failed: " err
   | None =>
   let t7 := t6 ++ snd r6 in
   let saved := utils.Save env (initialize.register config (fst (fst r4)))
                  (configPath env) t7 in
   snd saved ++
   match fst saved with
   | Some err => failure "Failed to write config: " err
   | None =>
       [ASend (render.AllDoneMsg (initialize.doneMessage (elapsed env (t7 ++ snd saved))))]
   end end end end end end end end) /\
  (Quiet (initialize.stage1LocalReqs env) /\
   Quiet (initialize.stage2Login env server) /\
   (forall sshClient loggedInUser,
       Quiet (initialize.stage3UserSetup env catalog sshClient loggedInUser)) /\
   (forall sidekickClient,
       Quiet (initialize.stage4VPSSetup env catalog sidekickClient sidekickServer) /\
       Quiet (initialize.stage5Docker env catalog sidekickClient) /\
       Quiet (initialize.stage6Traefik env catalog sidekickClient certEmail)) /\
   (forall registry, Quiet (utils.Save env registry (configPath env)))) /\
  ((exists m,
       events acts = replicate 5 render.NextStageMsg ++ [render.AllDoneMsg m] /\
       advances (events acts) = 5%nat /\
       last acts = Some (ASend (render.AllDoneMsg m))) \/
   (exists k m,
       (k <= 5)%nat /\
       events acts = replicate k render.NextStageMsg ++ [render.ErrorMsg m] /\
       advances (events acts) = k /\
       last acts = Some (ASend (render.ErrorMsg m)))).
Proof.
  intros acts advance failure login r1.
  split; [exact (worker_actions env catalog config server certEmail sidekickServer t)|].
  split.
  { repeat split; intros;
      first [ apply quiet_stage1LocalReqs | apply quiet_stage2Login
            | apply quiet_stage3UserSetup | apply quiet_stage4VPSSetup
            | apply quiet_stage5Docker | apply quiet_stage6Traefik
            | apply quiet_Save ]. }
  subst acts. clear advance failure login r1.
  destruct (worker_outcome env catalog config server certEmail sidekickServer t)
    as [(k & msg & pre & Hk & Hs & He)|(took & data & s & pre & _ & _ & _ & Hs & He)].
  - right. exists k, msg. rewrite Hs, events_app, He. simpl.
    repeat split; [assumption | | apply last_snoc].
    rewrite advances_replicate. simpl. lia.
  - left. exists (initialize.doneMessage took). rewrite Hs, events_app, He. simpl.
    repeat split.
    replace (pre ++ [AWriteFile (configPath env) data;
                     ASend (render.AllDoneMsg (initialize.doneMessage took))])
      with ((pre ++ [AWriteFile (configPath env) data]) ++
            [ASend (render.AllDoneMsg (initialize.doneMessage took))])
      by (rewrite <- app_assoc; reflexivity).
    apply last_snoc.
Qed.

(** C1, as stated, fails: on a fresh host every stage succeeds and the
    worker sends five advances, not six, before the completion message. *)
Lemma six_advances_counterexample :
  let evs := events (actionsOf
               (initialize.worker hosts.fresh hosts.catalog cmd.emptyConfig
                  "203.0.113.5" "a@b.com" hosts.box1Server)) in
  evs = [render.NextStageMsg; render.NextStageMsg; render.NextStageMsg;
         render.NextStageMsg; render.NextStageMsg;
         render.AllDoneMsg (initialize.doneMessage "42s")] /\
  advances evs = 5%nat /\
  advances evs <> 6%nat.
Proof. vm_compute. repeat split. discriminate. Qed.

(** ** Probes that cannot be executed *)

Lemma snoc_split_last {A : Type} (pre l1 l2 : list A) (x y : A) :
  pre ++ [x] = l1 ++ y :: l2 -> y ∉ pre -> l2 = [].
Proof.
  intros Heq Hnot.
  destruct l2 as [|z l2] using rev_ind; [reflexivity|].
  exfalso. apply Hnot.
  replace (l1 ++ y :: l2 ++ [z]) with ((l1 ++ y :: l2) ++ [z]) in Heq
    by (rewrite <- app_assoc; reflexivity).
  apply app_inj_tail in Heq as [-> _].
  apply elem_of_app. right. apply elem_of_cons. left. reflexivity.
Qed.

(** C6, as stated, fails: on a host where the probe of the
    container-runtime stage cannot be executed, the stage reports no
    error and runs the commands of its batch, and the workflow goes on
    to the end. *)
Lemma probe_failure_counterexample :
  RunErr (sshRun hosts.probeFails [] 2%nat initialize.dockerProbe) = Some "ssh: session failed" /\
  initialize.stage5Docker hosts.probeFails hosts.catalog 2%nat [] =
    (None, [ARunCommand 2%nat initialize.dockerProbe;
            ARunCommand 2%nat "sudo apt-get install -y docker-ce";
            ARunCommand 2%nat "sudo usermod -aG docker sidekick"]) /\
  last (actionsOf (initialize.worker hosts.probeFails hosts.catalog cmd.emptyConfig
                     "203.0.113.5" "a@b.com" hosts.box1Server)) =
    Some (ASend (render.AllDoneMsg (initialize.doneMessage "42s"))).
Proof. vm_compute. repeat split. Qed.

(** C6, as amended.  A probe that cannot be executed is not an error of
    its stage: the stage takes the effect as absent and goes on to its
    command batch (the user stage only when logged in as root), and
    returns what the batch returns.  Once the worker has sent an error
    message it performs no further action. *)
Theorem probe_failure_runs_batch (env : Env) (catalog : Catalog) (client : Client)
    (loggedInUser email : string) (t : Trace)
    (config : SidekickConfig) (server : string) (sidekickServer : SidekickServer) :
  (forall cause,
      RunErr (sshRun env t client initialize.dockerProbe) = Some cause ->
      let batch := utils.RunCommandsWithTUIHook env client (Commands (DockerStage catalog))
                     (t ++ [ARunCommand client initialize.dockerProbe]) in
      initialize.stage5Docker env catalog client t =
      (fst batch, ARunCommand client initialize.dockerProbe :: snd batch)) /\
  (forall cause,
      RunErr (sshRun env t client initialize.traefikProbe) = Some cause ->
      let batch := utils.RunCommandsWithTUIHook env client
                     (Commands (GetTraefikStage catalog email))
                     (t ++ [ARunCommand client initialize.traefikProbe]) in
      initialize.stage6Traefik env catalog client email t =
      (fst batch, ARunCommand client initialize.traefikProbe :: snd batch)) /\
  (forall cause,
      RunErr (sshRun env t client initialize.userProbe) = Some cause ->
      let batch := utils.RunStage env client (UsersetupStage catalog)
                     (t ++ [ARunCommand client initialize.userProbe]) in
      initialize.stage3UserSetup env catalog client loggedInUser t =
      if decide (loggedInUser = "root")
      then (fst batch, ARunCommand client initialize.userProbe :: snd batch)
      else (None, [ARunCommand client initialize.userProbe])) /\
  (forall pre msg post,
      snd (initialize.worker env catalog config server email sidekickServer t) =
        pre ++ ASend (render.ErrorMsg msg) :: post ->
      post = []).
Proof.
  repeat split.
  - intros cause Herr. unfold initialize.stage5Docker. run_monad. rewrite Herr. reflexivity.
  - intros cause Herr. unfold initialize.stage6Traefik. run_monad. rewrite Herr. reflexivity.
  - intros cause Herr. unfold initialize.stage3UserSetup. run_monad.
    rewrite Herr. simpl.
    case_bool_decide; case_decide; try contradiction; reflexivity.
  - intros pre msg post Hacts.
    destruct (worker_outcome env catalog config server email sidekickServer t)
      as [(k & msg' & pre' & _ & Hs & He)|(took & data & s & pre' & _ & _ & _ & Hs & He)].
    + rewrite Hs in Hacts. apply (snoc_split_last _ _ _ _ _ Hacts).
      rewrite sent_in_events, He. apply not_in_advances. discriminate.
    + exfalso.
      assert (render.ErrorMsg msg ∈
              events (initialize.worker env catalog config server email sidekickServer t).2)
        as Hin.
      { rewrite Hacts. apply sent_in_events.
        apply elem_of_app. right. apply elem_of_cons. left. reflexivity. }
      rewrite Hs, events_app, He in Hin. simpl in Hin.
      repeat (apply elem_of_cons in Hin as [Hin|Hin]; [discriminate|]).
      inversion Hin.
Qed.

Lemma probe_failure_runs_batch_witness :
  initialize.stage5Docker hosts.probeFails hosts.catalog 2%nat [] =
    (None, [ARunCommand 2%nat initialize.dockerProbe;
            ARunCommand 2%nat "sudo apt-get install -y docker-ce";
            ARunCommand 2%nat "sudo usermod -aG docker sidekick"]).
Proof.
  exact (proj1 (probe_failure_runs_batch hosts.probeFails hosts.catalog 2%nat "root" "a@b.com" []
                  cmd.emptyConfig "203.0.113.5" hosts.box1Server)
               "ssh: session failed" eq_refl).
Defined.

(** ** The init command on an empty registry *)





(** ** The config commands *)

(** C4.  When the legacy document can be read and parsed as a single
    Host Identity, the registry the migrate command builds holds exactly
    one server, the Host Identity read with its name set to default,
    exactly one context, named default and pointing at server default,
    has default as current context and 1 as version.  The command writes
    no file.  When the registry can be marshalled and the write to
    standard output succeeds, the command does exactly two things and
    returns: it reads the legacy file and writes the marshalled registry
    to standard output.  When that write fails, the same two actions are
    followed by the fatal line carrying the error of the write, and the
    process ends with status 2. *)
Theorem migrate_default (env : Env) (t : Trace) (content : string)
    (serverConfig : SidekickServer) :
  readFile env t (configPath env) = Ok content ->
  yamlUnmarshalServer env content = Ok serverConfig ->
  let newConfig := config.migrated serverConfig in
  let acts := snd (config.migrateCmd env t) in
  (exists s, Servers newConfig = [s] /\
             Server_Name s = "default" /\
             Server_Address s = Server_Address serverConfig /\
             Server_CertEmail s = Server_CertEmail serverConfig /\
             Server_Distro s = Server_Distro serverConfig /\
             Server_PlatformId s = Server_PlatformId serverConfig /\
             Server_PublicKey s = Server_PublicKey serverConfig /\
             Server_SecretKey s = Server_SecretKey serverConfig) /\
  Contexts newConfig = [mkContext "default" "default"] /\
  CurrentContext newConfig = "default" /\
  Version newConfig = "1" /\
  (forall path data, AWriteFile path data ∉ acts) /\
  (forall data, yamlMarshal env newConfig = Ok data ->
     match stdoutWrite env (t ++ [AReadFile (configPath env)]) data with
     | None =>
         config.migrateCmd env t =
           (Returned, [AReadFile (configPath env); AStdout data])
     | Some err =>
         config.migrateCmd env t =
           (OsExit 2, [AReadFile (configPath env); AStdout data; AFatal err])
     end).
Proof.
  intros Hread Hparse newConfig acts. subst newConfig acts.
  split; [eexists; repeat split|].
  repeat split.
  - intros path data. unfold config.migrateCmd, utils.Print. run_monad.
    rewrite Hread, Hparse. simpl.
    destruct (yamlMarshal env (config.migrated serverConfig)) as [out|err]; simpl.
    + destruct (stdoutWrite env _ out); simpl; intros Hin;
        repeat (apply elem_of_cons in Hin as [Hin|Hin]; [discriminate|]); inversion Hin.
    + intros Hin. repeat (apply elem_of_cons in Hin as [Hin|Hin]; [discriminate|]).
      inversion Hin.
  - intros data Hmarshal. unfold config.migrateCmd, utils.Print. run_monad.
    rewrite Hread, Hparse. simpl. rewrite Hmarshal. simpl.
    destruct (stdoutWrite env _ data); reflexivity.
Qed.

Lemma migrate_default_witness :
  let newConfig := config.migrated hosts.legacyServer in
  let acts := snd (config.migrateCmd hosts.fresh []) in
  (exists s, Servers newConfig = [s] /\
             Server_Name s = "default" /\
             Server_Address s = "198.51.100.7" /\
             Server_CertEmail s = "ops@example.org" /\
             Server_Distro s = "ubuntu" /\
             Server_PlatformId s = "linux/amd64" /\
             Server_PublicKey s = "age1legacy" /\
             Server_SecretKey s = "AGE-SECRET-KEY-1LEGACY") /\
  Contexts newConfig = [mkContext "default" "default"] /\
  CurrentContext newConfig = "default" /\
  Version newConfig = "1" /\
  (forall path data, AWriteFile path data ∉ acts) /\
  (forall data, yamlMarshal hosts.fresh newConfig = Ok data ->
     match stdoutWrite hosts.fresh ([] ++ [AReadFile (configPath hosts.fresh)]) data with
     | None =>
         config.migrateCmd hosts.fresh [] =
           (Returned, [AReadFile (configPath hosts.fresh); AStdout data])
     | Some err =>
         config.migrateCmd hosts.fresh [] =
           (OsExit 2, [AReadFile (configPath hosts.fresh); AStdout data; AFatal err])
     end).
Proof.
  exact (migrate_default hosts.fresh [] "address: 198.51.100.7" hosts.legacyServer
           eq_refl eq_refl).
Defined.

(** What [useContextCmd] does with the error of [Save]: for every outside
    world and every registry the command returns, so the process ends
    with status 0. *)
Lemma useContextCmd_returns (env : Env) (registry : SidekickConfig)
    (contextName : string) (t : Trace) :
  fst (config.useContextCmd env (Some registry) contextName t) = Returned.
Proof. reflexivity. Qed.

(** C8.  [config use prod] on a registry file that cannot be written:
    [Save] returns the error of the write, the command drops it and
    returns, and the process ends with status 0. *)
Theorem use_context_unwritable_registry :
  let registry := initialize.setCurrentContext hosts.twoHosts "prod" in
  let r := config.useContextCmd hosts.readOnly (Some hosts.twoHosts) "prod" [] in
  fst (utils.Save hosts.readOnly registry (configPath hosts.readOnly) []) =
    Some "permission denied" /\
  snd r = [AWriteFile (configPath hosts.readOnly) (hosts.showConfig registry)] /\
  fst r = Returned /\
  cmd.exitStatus (fst r) = 0.
Proof. vm_compute. repeat split. Qed.

(* ================================================================== *)
(** * Further properties *)
(* ================================================================== *)

(** ** The registry: lookups and upserts together *)

Section UpsertList.
Context {A : Type} (nameOf : A -> string).

(** The index-based upsert of the source is the recursive one. *)
Lemma indexLoop_upsertList (x : A) (l : list A) (i : Z) :
  0 <= i ->
  (if decide (utils.indexLoop nameOf (nameOf x) l i = -1) then l ++ [x]
   else <[Z.to_nat (utils.indexLoop nameOf (nameOf x) l i - i) := x]> l) =
  upsertList nameOf x l.
Proof.
  revert i. induction l as [|e l IH]; intros i Hi; simpl.
  - reflexivity.
  - destruct (decide (nameOf e = nameOf x)) as [He|He].
    + rewrite decide_False by lia. rewrite Z.sub_diag. reflexivity.
    + specialize (IH (i + 1) ltac:(lia)).
      destruct (decide (utils.indexLoop nameOf (nameOf x) l (i + 1) = -1)) as [Hn|Hs].
      * rewrite <- IH. reflexivity.
      * destruct (indexLoop_some nameOf (nameOf x) l (i + 1) ltac:(lia) Hs)
          as (k & _ & Hk & _).
        rewrite Hk in *.
        replace (Z.to_nat (i + 1 + Z.of_nat k - i)) with (S k) by lia.
        replace (Z.to_nat (i + 1 + Z.of_nat k - (i + 1))) with k in IH by lia.
        simpl. rewrite IH. reflexivity.
Qed.

Lemma upserted_upsertList (x : A) (l : list A) :
  upserted nameOf x l = upsertList nameOf x l.
Proof.
  unfold upserted. rewrite <- (indexLoop_upsertList x l 0) by lia.
  rewrite Z.sub_0_r. reflexivity.
Qed.

Lemma firstNamed_upsertList_same (x : A) (l : list A) :
  firstNamed nameOf (nameOf x) (upsertList nameOf x l) = Some x.
Proof.
  induction l as [|e l IH]; simpl.
  - rewrite decide_True by reflexivity. reflexivity.
  - destruct (decide (nameOf e = nameOf x)); simpl.
    + rewrite decide_True by reflexivity. reflexivity.
    + rewrite decide_False by assumption. exact IH.
Qed.

Lemma firstNamed_upsertList_other (x : A) (l : list A) (name : string) :
  name <> nameOf x ->
  firstNamed nameOf name (upsertList nameOf x l) = firstNamed nameOf name l.
Proof.
  intros Hne. induction l as [|e l IH]; simpl.
  - rewrite decide_False by congruence. reflexivity.
  - destruct (decide (nameOf e = nameOf x)) as [He|He]; simpl.
    + rewrite decide_False by congruence.
      rewrite decide_False by congruence. reflexivity.
    + destruct (decide (nameOf e = name)); [reflexivity | exact IH].
Qed.

Lemma upsertList_idempotent (x : A) (l : list A) :
  upsertList nameOf x (upsertList nameOf x l) = upsertList nameOf x l.
Proof.
  induction l as [|e l IH]; simpl.
  - rewrite decide_True by reflexivity. reflexivity.
  - destruct (decide (nameOf e = nameOf x)); simpl.
    + rewrite decide_True by reflexivity. reflexivity.
    + rewrite decide_False by assumption. rewrite IH. reflexivity.
Qed.

Lemma upsertList_names (x : A) (l : list A) (name : string) :
  name ∈ map nameOf (upsertList nameOf x l) ->
  name = nameOf x \/ name ∈ map nameOf l.
Proof.
  induction l as [|e l IH]; simpl.
  - intros Hin. apply elem_of_cons in Hin as [Hin|Hin]; [left; exact Hin | inversion Hin].
  - destruct (decide (nameOf e = nameOf x)) as [He|He]; simpl; intros Hin.
    + apply elem_of_cons in Hin as [Hin|Hin]; [left; exact Hin|].
      right. apply elem_of_cons. right. exact Hin.
    + apply elem_of_cons in Hin as [Hin|Hin].
      * right. apply elem_of_cons. left. exact Hin.
      * destruct (IH Hin) as [H|H]; [left; exact H|].
        right. apply elem_of_cons. right. exact H.
Qed.

Lemma upsertList_NoDup (x : A) (l : list A) :
  NoDup (map nameOf l) -> NoDup (map nameOf (upsertList nameOf x l)).
Proof.
  induction l as [|e l IH]; simpl; intros Hnd.
  - apply NoDup_singleton.
  - apply NoDup_cons in Hnd as [Hnotin Hnd].
    destruct (decide (nameOf e = nameOf x)) as [He|He]; simpl.
    + apply NoDup_cons. rewrite <- He. split; assumption.
    + apply NoDup_cons. split; [|apply IH; exact Hnd].
      intros Hin. destruct (upsertList_names x l _ Hin) as [H|H]; contradiction.
Qed.

End UpsertList.

Lemma findServerIn_firstNamed (name : string) (l : list SidekickServer) :
  utils.findServerIn name l =
  match firstNamed Server_Name name l with
  | Some s => Ok s
  | None => Err ("server '" +:+ name +:+ "' not found")
  end.
Proof.
  induction l as [|s l IH]; simpl; [reflexivity|].
  destruct (decide (Server_Name s = name)); [reflexivity | exact IH].
Qed.

Lemma findContextIn_firstNamed (name : string) (l : list SidekickContext) :
  utils.findContextIn name l =
  match firstNamed Context_Name name l with
  | Some ctx => Ok ctx
  | None => Err ("context '" +:+ name +:+ "' not found")
  end.
Proof.
  induction l as [|ctx l IH]; simpl; [reflexivity|].
  destruct (decide (Context_Name ctx = name)); [reflexivity | exact IH].
Qed.

Lemma Servers_AddOrReplaceServer (c : SidekickConfig) (s : SidekickServer) :
  Servers (utils.AddOrReplaceServer c s) = upsertList Server_Name s (Servers c).
Proof.
  destruct (AddOrReplaceServer_Servers c s) as (-> & _). apply upserted_upsertList.
Qed.

Lemma Contexts_AddOrReplaceContext (c : SidekickConfig) (ctx : SidekickContext) :
  Contexts (utils.AddOrReplaceContext c ctx) = upsertList Context_Name ctx (Contexts c).
Proof.
  destruct (AddOrReplaceContext_Contexts c ctx) as (-> & _). apply upserted_upsertList.
Qed.

(** X1.  A lookup by name right after an upsert finds the value that was
    put in: [FindServer] after [AddOrReplaceServer], and [FindContext]
    after [AddOrReplaceContext], whatever the registry held before (also
    when it held several entries of that name). *)
Theorem find_after_upsert (c : SidekickConfig) (s : SidekickServer) (ctx : SidekickContext) :
  utils.FindServer (utils.AddOrReplaceServer c s) (Server_Name s) = Ok s /\
  utils.FindContext (utils.AddOrReplaceContext c ctx) (Context_Name ctx) = Ok ctx.
Proof.
  unfold utils.FindServer, utils.FindContext.
  rewrite findServerIn_firstNamed, findContextIn_firstNamed.
  rewrite Servers_AddOrReplaceServer, Contexts_AddOrReplaceContext.
  rewrite !firstNamed_upsertList_same. split; reflexivity.
Qed.

(** X2.  An upsert changes no lookup under another name: [FindServer]
    and [FindContext] answer for every other name what they answered
    before, and an upsert of a server leaves every context lookup as it
    was (and the other way round). *)
Theorem find_other_after_upsert (c : SidekickConfig) (s : SidekickServer)
    (ctx : SidekickContext) (name : string) :
  (name <> Server_Name s ->
   utils.FindServer (utils.AddOrReplaceServer c s) name = utils.FindServer c name) /\
  (name <> Context_Name ctx ->
   utils.FindContext (utils.AddOrReplaceContext c ctx) name = utils.FindContext c name) /\
  utils.FindContext (utils.AddOrReplaceServer c s) name = utils.FindContext c name /\
  utils.FindServer (utils.AddOrReplaceContext c ctx) name = utils.FindServer c name.
Proof.
  unfold utils.FindServer, utils.FindContext.
  destruct (AddOrReplaceServer_Servers c s) as (_ & HC & _).
  destruct (AddOrReplaceContext_Contexts c ctx) as (_ & HS & _).
  rewrite HC, HS.
  repeat split.
  - intros Hne. rewrite !findServerIn_firstNamed, Servers_AddOrReplaceServer.
    rewrite firstNamed_upsertList_other by assumption. reflexivity.
  - intros Hne. rewrite !findContextIn_firstNamed, Contexts_AddOrReplaceContext.
    rewrite firstNamed_upsertList_other by assumption. reflexivity.
Qed.

Lemma find_other_after_upsert_witness :
  utils.FindServer (utils.AddOrReplaceServer hosts.twoHosts hosts.box1Server) "prod" =
  utils.FindServer hosts.twoHosts "prod".
Proof.
  exact (proj1 (find_other_after_upsert hosts.twoHosts hosts.box1Server
                  (mkContext "box1" "box1") "prod") ltac:(discriminate)).
Defined.

(** X3.  Upserts keep names unique: when no two servers (no two
    contexts) of the registry share a name, none do after
    [AddOrReplaceServer] ([AddOrReplaceContext]). *)
Theorem upsert_keeps_names_unique (c : SidekickConfig) (s : SidekickServer)
    (ctx : SidekickContext) :
  (NoDup (map Server_Name (Servers c)) ->
   NoDup (map Server_Name (Servers (utils.AddOrReplaceServer c s)))) /\
  (NoDup (map Context_Name (Contexts c)) ->
   NoDup (map Context_Name (Contexts (utils.AddOrReplaceContext c ctx)))).
Proof.
  rewrite Servers_AddOrReplaceServer, Contexts_AddOrReplaceContext.
  split; apply upsertList_NoDup.
Qed.

Lemma upsert_keeps_names_unique_witness :
  NoDup (map Server_Name (Servers (utils.AddOrReplaceServer hosts.twoHosts hosts.box1Server))) /\
  NoDup (map Context_Name
           (Contexts (utils.AddOrReplaceContext hosts.twoHosts (mkContext "staging" "prod")))).
Proof.
  destruct (upsert_keeps_names_unique hosts.twoHosts hosts.box1Server
              (mkContext "staging" "prod")) as [Hs Hc].
  split; [apply Hs | apply Hc]; simpl;
    repeat (apply NoDup_cons; split;
            [intros Hin; repeat (apply elem_of_cons in Hin as [Hin|Hin]; [discriminate|]);
             inversion Hin|]);
    apply NoDup_nil; exact I.
Defined.

(** X4.  Upserting the same value twice is upserting it once. *)
Theorem upsert_idempotent (c : SidekickConfig) (s : SidekickServer) (ctx : SidekickContext) :
  utils.AddOrReplaceServer (utils.AddOrReplaceServer c s) s = utils.AddOrReplaceServer c s /\
  utils.AddOrReplaceContext (utils.AddOrReplaceContext c ctx) ctx =
    utils.AddOrReplaceContext c ctx.
Proof.
  split.
  - assert (Servers (utils.AddOrReplaceServer (utils.AddOrReplaceServer c s) s) =
            Servers (utils.AddOrReplaceServer c s)) as H1.
    { rewrite (Servers_AddOrReplaceServer (utils.AddOrReplaceServer c s) s).
      rewrite (Servers_AddOrReplaceServer c s). apply upsertList_idempotent. }
    destruct (AddOrReplaceServer_Servers (utils.AddOrReplaceServer c s) s)
      as (_ & H2 & H3 & H4).
    destruct (utils.AddOrReplaceServer (utils.AddOrReplaceServer c s) s),
             (utils.AddOrReplaceServer c s); simpl in *. congruence.
  - assert (Contexts (utils.AddOrReplaceContext (utils.AddOrReplaceContext c ctx) ctx) =
            Contexts (utils.AddOrReplaceContext c ctx)) as H1.
    { rewrite (Contexts_AddOrReplaceContext (utils.AddOrReplaceContext c ctx) ctx).
      rewrite (Contexts_AddOrReplaceContext c ctx). apply upsertList_idempotent. }
    destruct (AddOrReplaceContext_Contexts (utils.AddOrReplaceContext c ctx) ctx)
      as (_ & H2 & H3 & H4).
    destruct (utils.AddOrReplaceContext (utils.AddOrReplaceContext c ctx) ctx),
             (utils.AddOrReplaceContext c ctx); simpl in *. congruence.
Qed.

Lemma firstNamed_spec {A : Type} (nameOf : A -> string) (name : string) (l : list A) :
  match firstNamed nameOf name l with
  | Some e =>
      exists i : nat,
        l !! i = Some e /\ nameOf e = name /\
        forall (j : nat) (e' : A), (j < i)%nat -> l !! j = Some e' -> nameOf e' <> name
  | None => forall e, e ∈ l -> nameOf e <> name
  end.
Proof.
  induction l as [|e l IH]; simpl.
  - intros e He. inversion He.
  - destruct (decide (nameOf e = name)) as [He|He].
    + exists 0%nat. repeat split; [assumption|]. intros j e' Hj. lia.
    + destruct (firstNamed nameOf name l) as [found|].
      * destruct IH as (i & Hi & Hn & Hfirst). exists (S i). repeat split; try assumption.
        intros [|j] e' Hj He'; simpl in He'.
        -- injection He' as <-. exact He.
        -- apply (Hfirst j e'); [lia | exact He'].
      * intros e' He'. apply elem_of_cons in He' as [->|He']; [exact He | apply IH; exact He'].
Qed.


(** X5.  [FindServer] and [FindContext] answer with the first entry of
    the slice that carries the name (every entry before it carries
    another name), and with the not-found error, which quotes the name,
    exactly when no entry carries it. *)
Theorem find_first_match (c : SidekickConfig) (name : string) :
  match utils.FindServer c name with
  | Ok s =>
      exists i : nat,
        Servers c !! i = Some s /\ Server_Name s = name /\
        forall (j : nat) (s' : SidekickServer),
          (j < i)%nat -> Servers c !! j = Some s' -> Server_Name s' <> name
  | Err msg =>
      msg = "server '" +:+ name +:+ "' not found" /\
      forall s, s ∈ Servers c -> Server_Name s <> name
  end /\
  match utils.FindContext c name with
  | Ok ctx =>
      exists i : nat,
        Contexts c !! i = Some ctx /\ Context_Name ctx = name /\
        forall (j : nat) (ctx' : SidekickContext),
          (j < i)%nat -> Contexts c !! j = Some ctx' -> Context_Name ctx' <> name
  | Err msg =>
      msg = "context '" +:+ name +:+ "' not found" /\
      forall ctx, ctx ∈ Contexts c -> Context_Name ctx <> name
  end.
Proof.
  unfold utils.FindServer, utils.FindContext.
  rewrite findServerIn_firstNamed, findContextIn_firstNamed.
  pose proof (firstNamed_spec Server_Name name (Servers c)) as Hs.
  pose proof (firstNamed_spec Context_Name name (Contexts c)) as Hc.
  destruct (firstNamed Server_Name name (Servers c)),
           (firstNamed Context_Name name (Contexts c)); repeat split; assumption.
Qed.

(** X6.  [FindServerByContext] answers with a server of the registry
    whose name is the one a context of the given name points at.  It
    fails with the context error when no context carries the name, and
    with the server error, quoting the name the context points at, when
    the context is there but its server is not. *)
Theorem find_server_by_context (c : SidekickConfig) (ctxName : string) :
  match utils.FindServerByContext c ctxName with
  | Ok s =>
      exists ctx,
        ctx ∈ Contexts c /\ Context_Name ctx = ctxName /\
        s ∈ Servers c /\ Server_Name s = Context_Server ctx
  | Err msg =>
      (msg = "context '" +:+ ctxName +:+ "' not found" /\
       forall ctx, ctx ∈ Contexts c -> Context_Name ctx <> ctxName) \/
      (exists ctx,
          ctx ∈ Contexts c /\ Context_Name ctx = ctxName /\
          msg = "server '" +:+ Context_Server ctx +:+ "' not found" /\
          forall s, s ∈ Servers c -> Server_Name s <> Context_Server ctx)
  end.
Proof.
  unfold utils.FindServerByContext, utils.FindServer, utils.FindContext.
  rewrite findContextIn_firstNamed.
  pose proof (firstNamed_spec Context_Name ctxName (Contexts c)) as Hc.
  destruct (firstNamed Context_Name ctxName (Contexts c)) as [ctx|].
  - destruct Hc as (i & Hi & Hn & _).
    assert (ctx ∈ Contexts c) as Hin by (apply list_elem_of_lookup; eauto).
    rewrite findServerIn_firstNamed.
    pose proof (firstNamed_spec Server_Name (Context_Server ctx) (Servers c)) as Hs.
    destruct (firstNamed Server_Name (Context_Server ctx) (Servers c)) as [s|].
    + destruct Hs as (k & Hk & Hsn & _). exists ctx. repeat split; try assumption.
      apply list_elem_of_lookup. eauto.
    + right. exists ctx. repeat split; assumption.
  - left. split; [reflexivity | exact Hc].
Qed.

Example find_server_by_context_dangling :
  utils.FindServerByContext
    (mkConfig "1" [hosts.keyedServer] [mkContext "old" "gone"] "old") "old" =
  Err "server 'gone' not found".
Proof. reflexivity. Qed.

Lemma register_tables (c : SidekickConfig) (s : SidekickServer) :
  Servers (initialize.register c s) = upsertList Server_Name s (Servers c) /\
  Contexts (initialize.register c s) =
    upsertList Context_Name (mkContext (Server_Name s) (Server_Name s)) (Contexts c) /\
  CurrentContext (initialize.register c s) = Server_Name s /\
  Version (initialize.register c s) = Version c.
Proof.
  unfold initialize.register, initialize.setCurrentContext. simpl.
  destruct (AddOrReplaceContext_Contexts (utils.AddOrReplaceServer c s)
              (mkContext (Server_Name s) (Server_Name s))) as (H1 & H2 & H3 & _).
  destruct (AddOrReplaceServer_Servers c s) as (_ & H5 & H6 & _).
  rewrite H1, H2, H3, H5, H6, upserted_upsertList, Servers_AddOrReplaceServer.
  repeat split.
Qed.


(** X7.  After lines 282-285 of the init command the registry answers
    for the new Host Identity: its current context resolves to the Host
    Identity that was put in, and so do the lookups of the server and of
    the context by its name. *)
Theorem registered_host_resolves (c : SidekickConfig) (s : SidekickServer) :
  let registry := initialize.register c s in
  utils.FindServerByContext registry (CurrentContext registry) = Ok s /\
  utils.FindServer registry (Server_Name s) = Ok s /\
  utils.FindContext registry (Server_Name s) =
    Ok (mkContext (Server_Name s) (Server_Name s)).
Proof.
  intros registry. subst registry.
  destruct (register_tables c s) as (HS & HC & HK & _).
  assert (utils.FindServer (initialize.register c s) (Server_Name s) = Ok s) as Hfs.
  { unfold utils.FindServer. rewrite findServerIn_firstNamed, HS.
    rewrite firstNamed_upsertList_same. reflexivity. }
  assert (utils.FindContext (initialize.register c s) (Server_Name s) =
          Ok (mkContext (Server_Name s) (Server_Name s))) as Hfc.
  { unfold utils.FindContext. rewrite findContextIn_firstNamed, HC.
    rewrite (firstNamed_upsertList_same Context_Name
               (mkContext (Server_Name s) (Server_Name s))). reflexivity. }
  repeat split; try assumption.
  unfold utils.FindServerByContext. rewrite HK, Hfc. simpl. exact Hfs.
Qed.

(** X8.  Lines 282-285 keep the registry well formed and touch one name
    only: server names and context names stay unique when they were, the
    version is kept, and the lookups of every other server and of every
    other context answer what they answered before. *)
Theorem register_frame (c : SidekickConfig) (s : SidekickServer) (name : string) :
  let registry := initialize.register c s in
  (NoDup (map Server_Name (Servers c)) -> NoDup (map Server_Name (Servers registry))) /\
  (NoDup (map Context_Name (Contexts c)) -> NoDup (map Context_Name (Contexts registry))) /\
  Version registry = Version c /\
  (name <> Server_Name s ->
   utils.FindServer registry name = utils.FindServer c name /\
   utils.FindContext registry name = utils.FindContext c name).
Proof.
  intros registry. subst registry.
  destruct (register_tables c s) as (HS & HC & _ & HV).
  rewrite HS, HC, HV. repeat split.
  - apply upsertList_NoDup.
  - apply upsertList_NoDup.
  - unfold utils.FindServer. rewrite !findServerIn_firstNamed, HS.
    rewrite firstNamed_upsertList_other by assumption. reflexivity.
  - unfold utils.FindContext. rewrite !findContextIn_firstNamed, HC.
    rewrite firstNamed_upsertList_other by assumption. reflexivity.
Qed.

Lemma register_frame_witness :
  utils.FindServer (initialize.register hosts.twoHosts hosts.box1Server) "prod" =
    utils.FindServer hosts.twoHosts "prod" /\
  utils.FindContext (initialize.register hosts.twoHosts hosts.box1Server) "prod" =
    utils.FindContext hosts.twoHosts "prod".
Proof.
  exact (proj2 (proj2 (proj2 (register_frame hosts.twoHosts hosts.box1Server "prod")))
           ltac:(discriminate)).
Defined.

(** ** The stages: what they touch *)

Lemma confined_ret {A : Type} (ok : Action -> bool) (a : A) : Confined ok (mret a : M A).
Proof. intros t. reflexivity. Qed.

Lemma confined_perform {A : Type} (ok : Action -> bool) (a : Action) (oracle : Trace -> A) :
  ok a = true -> Confined ok (perform a oracle).
Proof. intros H t. simpl. rewrite H. reflexivity. Qed.

Lemma confined_bind {A B : Type} (ok : Action -> bool) (m : M A) (k : A -> M B) :
  Confined ok m -> (forall a, Confined ok (k a)) -> Confined ok (m ≫= k).
Proof.
  intros Hm Hk t. rewrite bind_run. simpl. rewrite forallb_app, Hm, Hk. reflexivity.
Qed.

Lemma confined_weaken {A : Type} (ok ok' : Action -> bool) (m : M A) :
  (forall a, ok a = true -> ok' a = true) -> Confined ok m -> Confined ok' m.
Proof.
  intros Himp Hm t. specialize (Hm t).
  rewrite forallb_forall in *. intros a Ha. apply Himp, Hm, Ha.
Qed.

Lemma confined_RunCommandsWithTUIHook env client commands :
  Confined (isCommandOn client) (utils.RunCommandsWithTUIHook env client commands).
Proof.
  induction commands as [|c cs IH]; simpl; [apply confined_ret|].
  apply confined_bind.
  - apply confined_perform. simpl. apply bool_decide_eq_true_2. reflexivity.
  - intros r. destruct (RunErr r); [apply confined_ret | exact IH].
Qed.

(** Goes through a computation built from binds, returns, case
    distinctions and actions of the kind at hand. *)
Ltac confined :=
  repeat first
    [ apply confined_ret
    | apply confined_RunCommandsWithTUIHook
    | apply confined_perform; simpl;
      rewrite ?bool_decide_eq_true_2 by (try split; reflexivity); reflexivity
    | apply confined_bind; [|intros ?]
    | match goal with
      | |- Confined _ (match ?x with _ => _ end) => destruct x
      | |- Confined _ (if ?b then _ else _) => destruct b
      end
    | progress cbv zeta ].

Lemma confined_stage1LocalReqs env : Confined isLocalTool (initialize.stage1LocalReqs env).
Proof.
  unfold initialize.stage1LocalReqs, initialize.ensureTool, initialize.LookPath,
    initialize.CommandRun. confined.
Qed.

Lemma confined_stage2Login env server :
  Confined (isLoginTo server) (initialize.stage2Login env server).
Proof. unfold initialize.stage2Login. simpl. unfold utils.Login. confined. Qed.

Lemma confined_stage3UserSetup env catalog client user :
  Confined (isCommandOn client) (initialize.stage3UserSetup env catalog client user).
Proof.
  unfold initialize.stage3UserSetup, utils.RunCommand, utils.RunStage.
  apply confined_bind; [confined|]. intros r. cbv zeta.
  match goal with |- Confined _ (if ?b then _ else _) => destruct b end; confined.
Qed.

Lemma confined_stage4VPSSetup env catalog client server :
  Confined (fun a => isCommandOn client a || isKeygen a)
           (initialize.stage4VPSSetup env catalog client server).
Proof.
  unfold initialize.stage4VPSSetup, utils.RunCommand, initialize.CommandOutput.
  apply confined_bind; [confined|]. intros r.
  apply confined_bind; [confined|]. intros r'.
  apply confined_bind.
  { apply (confined_weaken (isCommandOn client)); [|apply confined_RunCommandsWithTUIHook].
    intros a ->. reflexivity. }
  intros e. confined.
Qed.

Lemma confined_stage5Docker env catalog client :
  Confined (isCommandOn client) (initialize.stage5Docker env catalog client).
Proof.
  unfold initialize.stage5Docker, utils.RunCommand.
  apply confined_bind; [confined|]. intros r. cbv zeta.
  match goal with |- Confined _ (if ?b then _ else _) => destruct b end; confined.
Qed.

Lemma confined_stage6Traefik env catalog client email :
  Confined (isCommandOn client) (initialize.stage6Traefik env catalog client email).
Proof.
  unfold initialize.stage6Traefik, utils.RunCommand.
  apply confined_bind; [confined|]. intros r. cbv zeta.
  match goal with |- Confined _ (if ?b then _ else _) => destruct b end; confined.
Qed.

(** X9.  What the first two stages touch, whatever the outside world
    answers: [stage1LocalReqs] only looks tools up and runs brew, so
    nothing of it reaches the network; [stage2Login] only logs in, and
    only to the address it was given.  Neither of them asks a question,
    touches a file, runs a command on the host or sends a message. *)
Theorem stage_footprints (env : Env) (server : string) :
  Confined isLocalTool (initialize.stage1LocalReqs env) /\
  Confined (isLoginTo server) (initialize.stage2Login env server).
Proof.
  split.
  - apply confined_stage1LocalReqs.
  - apply confined_stage2Login.
Qed.

(** ** The local requirements *)



(** ** The user stage *)

(** X11.  Logged in as anyone but root, [stage3UserSetup] only runs the
    existence check: whatever the check answers, no command of the user
    stage is run and the stage returns without error. *)
Theorem user_setup_only_as_root (env : Env) (catalog : Catalog) (client : Client)
    (loggedInUser : string) (t : Trace) :
  loggedInUser <> "root" ->
  initialize.stage3UserSetup env catalog client loggedInUser t =
  (None, [ARunCommand client initialize.userProbe]).
Proof.
  intros Hne. unfold initialize.stage3UserSetup. run_monad.
  rewrite bool_decide_eq_false_2 by assumption. rewrite andb_false_r. reflexivity.
Qed.

Lemma user_setup_only_as_root_witness :
  initialize.stage3UserSetup hosts.fresh hosts.catalog 2%nat "sidekick" [] =
  (None, [ARunCommand 2%nat initialize.userProbe]).
Proof.
  apply (user_setup_only_as_root hosts.fresh hosts.catalog 2%nat "sidekick" []).
  discriminate.
Defined.

(** ** Host setup *)

(** X12.  [stage4VPSSetup] starts with its two read-only probes, records
    the output of the first as the Distro of the Host Identity, and
    leaves Name, Address and CertEmail as they were, on the success and
    on the error paths. *)
Theorem host_setup_records_distro (env : Env) (catalog : Catalog) (client : Client)
    (server : SidekickServer) (t : Trace) :
  let r := initialize.stage4VPSSetup env catalog client server t in
  Server_Distro (fst (fst r)) = Output (sshRun env t client initialize.distroProbe) /\
  Server_Name (fst (fst r)) = Server_Name server /\
  Server_Address (fst (fst r)) = Server_Address server /\
  Server_CertEmail (fst (fst r)) = Server_CertEmail server /\
  exists rest,
    snd r = ARunCommand client initialize.distroProbe ::
            ARunCommand client initialize.archProbe :: rest.
Proof.
  intros r. subst r.
  destruct (stage4VPSSetup_identity env catalog client server t) as (Hn & Ha & Hc).
  repeat split; try assumption.
  - destruct (stage4VPSSetup_server env catalog client server t) as [H|[_ [outStr H]]];
      rewrite H.
    + match goal with |- context [initialize.detectPlatform ?a ?s] =>
        destruct (detectPlatform_frame a s) as (_ & _ & -> & _) end.
      reflexivity.
    + match goal with |- context [initialize.parseKeygen ?o ?s] =>
        destruct (parseKeygen_frame o s) as (_ & -> & _) end.
      match goal with |- context [initialize.detectPlatform ?a ?s] =>
        destruct (detectPlatform_frame a s) as (_ & _ & -> & _) end.
      reflexivity.
  - unfold initialize.stage4VPSSetup. run_monad. eexists. reflexivity.
Qed.

(** X13.  When the Host Identity enters [stage4VPSSetup] with an empty
    PublicKey or an empty SecretKey and the setup commands all run, the
    stage ends by invoking age-keygen once: its output is parsed into
    the detected Host Identity, and its failure is the error of the
    stage, the keys staying as they were.  When a setup command fails,
    age-keygen is not invoked, even though a key is missing. *)
Theorem host_setup_keygen (env : Env) (catalog : Catalog) (client : Client)
    (server : SidekickServer) (t : Trace) :
  Server_PublicKey server = "" \/ Server_SecretKey server = "" ->
  let probes := [ARunCommand client initialize.distroProbe;
                 ARunCommand client initialize.archProbe] in
  let detected :=
    initialize.detectPlatform
      (Output (sshRun env (t ++ [ARunCommand client initialize.distroProbe]) client
                      initialize.archProbe))
      (initialize.setDistro server (Output (sshRun env t client initialize.distroProbe))) in
  let batch := utils.RunCommandsWithTUIHook env client (Commands (SetupStage catalog))
                 (t ++ probes) in
  let r := initialize.stage4VPSSetup env catalog client server t in
  (fst batch = None ->
   snd r = probes ++ snd batch ++ [AExec "age-keygen" []] /\
   match execOutput env (t ++ probes ++ snd batch) "age-keygen" [] with
   | Ok outStr => fst r = (initialize.parseKeygen outStr detected, None)
   | Err err =>
       fst r = (detected, Some err) /\
       Server_PublicKey detected = Server_PublicKey server /\
       Server_SecretKey detected = Server_SecretKey server
   end) /\
  (forall err, fst batch = Some err ->
               r = ((detected, Some err), probes ++ snd batch)).
Proof.
  intros Hkey probes detected batch r. subst r.
  destruct (detectPlatform_frame
              (Output (sshRun env (t ++ [ARunCommand client initialize.distroProbe]) client
                              initialize.archProbe))
              (initialize.setDistro server
                 (Output (sshRun env t client initialize.distroProbe))))
    as (Hp & Hs & _).
  fold detected in Hp, Hs. simpl in Hp, Hs.
  unfold initialize.stage4VPSSetup. run_monad.
  replace ((t ++ [ARunCommand client initialize.distroProbe]) ++
           [ARunCommand client initialize.archProbe]) with (t ++ probes)
    by (rewrite <- app_assoc; reflexivity).
  fold detected. fold batch.
  clearbody batch. destruct batch as [outcome ran]. simpl.
  split.
  - intros ->. simpl.
    rewrite decide_True by (rewrite Hp, Hs; exact Hkey). simpl.
    rewrite <- app_assoc. simpl.
    match goal with |- context [execOutput env ?t' "age-keygen" []] =>
      destruct (execOutput env t' "age-keygen" []) end; simpl;
      repeat split; assumption.
  - intros err ->. simpl. rewrite app_nil_r. reflexivity.
Qed.

Lemma host_setup_keygen_witness :
  let r := initialize.stage4VPSSetup hosts.fresh hosts.catalog 2%nat hosts.box1Server [] in
  snd r = [ARunCommand 2%nat initialize.distroProbe; ARunCommand 2%nat initialize.archProbe;
           ARunCommand 2%nat "sudo apt-get update -y"; ARunCommand 2%nat "mkdir -p sidekick";
           AExec "age-keygen" []] /\
  Server_PublicKey (fst (fst r)) = "age1qyqszqgpqyqszqgp" /\
  Server_SecretKey (fst (fst r)) = "AGE-SECRET-KEY-1QYQSZQGPQYQSZQGP".
Proof.
  destruct (proj1 (host_setup_keygen hosts.fresh hosts.catalog 2%nat hosts.box1Server []
                     (or_introl eq_refl)) eq_refl) as [Hacts Hval].
  split; [exact Hacts|].
  change (execOutput hosts.fresh _ "age-keygen" []) with (Ok hosts.keygenOutput) in Hval.
  cbv beta iota in Hval.
  change (initialize.stage4VPSSetup hosts.fresh hosts.catalog 2%nat hosts.box1Server [])
    with (fst (initialize.stage4VPSSetup hosts.fresh hosts.catalog 2%nat hosts.box1Server []),
          snd (initialize.stage4VPSSetup hosts.fresh hosts.catalog 2%nat hosts.box1Server [])).
  cbn [fst] in *. rewrite Hval. split; reflexivity.
Defined.

(** ** The output of age-keygen *)

Lemma Split_nonempty (s : string) (sep : ascii) : strings.Split s sep <> [].
Proof.
  induction s as [|a s IH]; simpl; [discriminate|].
  destruct (decide (a = sep)); [discriminate|].
  destruct (strings.Split s sep); [contradiction | discriminate].
Qed.

Lemma Split_length (s : string) (sep : ascii) :
  length (strings.Split s sep) = S (countByte sep s).
Proof.
  induction s as [|a s IH]; simpl; [reflexivity|].
  destruct (decide (a = sep)); simpl; [rewrite IH; reflexivity|].
  pose proof (Split_nonempty s sep) as Hne.
  destruct (strings.Split s sep); [contradiction | exact IH].
Qed.

Lemma Split_append (a b : string) (sep : ascii) :
  hasByte sep a = false ->
  strings.Split (a +:+ String sep b) sep = a :: strings.Split b sep.
Proof.
  induction a as [|c a IH]; simpl; intros Hno.
  - rewrite decide_True by reflexivity. reflexivity.
  - apply orb_false_elim in Hno as [Hc Ha].
    apply bool_decide_eq_false in Hc.
    rewrite decide_False by assumption. rewrite (IH Ha). reflexivity.
Qed.

Lemma Split_whole (s : string) (sep : ascii) :
  hasByte sep s = false -> strings.Split s sep = [s].
Proof.
  induction s as [|c s IH]; simpl; intros Hno; [reflexivity|].
  apply orb_false_elim in Hno as [Hc Hs].
  apply bool_decide_eq_false in Hc.
  rewrite decide_False by assumption. rewrite (IH Hs). reflexivity.
Qed.

Lemma RemoveAll_whole (s : string) (c : ascii) :
  hasByte c s = false -> strings.RemoveAll s c = s.
Proof.
  induction s as [|a s IH]; simpl; intros Hno; [reflexivity|].
  apply orb_false_elim in Hno as [Ha Hs].
  apply bool_decide_eq_false in Ha.
  rewrite decide_False by assumption. rewrite (IH Hs). reflexivity.
Qed.

Lemma hasByte_append (c : ascii) (a b : string) :
  hasByte c (a +:+ b) = hasByte c a || hasByte c b.
Proof.
  induction a as [|x a IH]; simpl; [reflexivity|].
  rewrite IH. apply orb_assoc.
Qed.

(** X14.  The output of age-keygen is parsed as the tool prints it: a
    first line, a second line made of a label, a colon, a blank and the
    public key, and a third line with the secret key.  The Host Identity
    gets exactly that public key and that secret key, provided the first
    line and the two keys hold no line break and the public key holds no
    colon and no blank. *)
Theorem parseKeygen_age_output (created pub sec : string) (server : SidekickServer) :
  hasByte "010"%char created = false ->
  hasByte "010"%char pub = false ->
  hasByte ":"%char pub = false ->
  hasByte " "%char pub = false ->
  hasByte "010"%char sec = false ->
  let outStr := created +:+ newline +:+ "# public key: " +:+ pub +:+ newline +:+
                sec +:+ newline in
  Server_PublicKey (initialize.parseKeygen outStr server) = pub /\
  Server_SecretKey (initialize.parseKeygen outStr server) = sec.
Proof.
  intros Hc Hp1 Hp2 Hp3 Hs outStr. subst outStr.
  unfold initialize.parseKeygen, newline.
  change (created +:+ String "010" "" +:+ "# public key: " +:+ pub +:+ String "010" "" +:+
          sec +:+ String "010" "")
    with (created +:+ String "010" (("# public key: " +:+ pub) +:+
                                    String "010" (sec +:+ String "010" ""))).
  rewrite (Split_append created) by assumption.
  rewrite (Split_append ("# public key: " +:+ pub))
    by (rewrite hasByte_append, Hp1; reflexivity).
  rewrite (Split_append sec) by assumption.
  simpl strings.Split at 1. simpl length. simpl nth.
  rewrite decide_True by lia.
  change ("" +:+ pub) with pub. rewrite (Split_whole pub ":") by assumption.
  simpl length. rewrite decide_True by lia.
  simpl. rewrite (RemoveAll_whole pub) by assumption.
  split; reflexivity.
Qed.

Lemma parseKeygen_age_output_witness :
  let outStr := "# created: 2024-08-01T10:00:00Z" +:+ newline +:+ "# public key: " +:+
                "age1qyqszqgpqyqszqgp" +:+ newline +:+
                "AGE-SECRET-KEY-1QYQSZQGPQYQSZQGP" +:+ newline in
  Server_PublicKey (initialize.parseKeygen outStr hosts.box1Server) = "age1qyqszqgpqyqszqgp" /\
  Server_SecretKey (initialize.parseKeygen outStr hosts.box1Server) =
    "AGE-SECRET-KEY-1QYQSZQGPQYQSZQGP".
Proof.
  apply (parseKeygen_age_output "# created: 2024-08-01T10:00:00Z" "age1qyqszqgpqyqszqgp"
           "AGE-SECRET-KEY-1QYQSZQGPQYQSZQGP" hosts.box1Server); reflexivity.
Defined.

(** X15.  An output of age-keygen with fewer than three lines (fewer
    than two line breaks) leaves the Host Identity as it is, keys
    included.  With three lines or more whose second line holds no
    colon, the third line becomes the secret key while the public key
    stays as it was. *)
Theorem parseKeygen_short_output (outStr : string) (server : SidekickServer) :
  ((countByte "010"%char outStr < 2)%nat ->
   initialize.parseKeygen outStr server = server) /\
  ((2 <= countByte "010"%char outStr)%nat ->
   hasByte ":"%char (nth 1 (strings.Split outStr "010"%char) "") = false ->
   Server_PublicKey (initialize.parseKeygen outStr server) = Server_PublicKey server /\
   Server_SecretKey (initialize.parseKeygen outStr server) =
     nth 2 (strings.Split outStr "010"%char) "").
Proof.
  unfold initialize.parseKeygen. rewrite Split_length. split.
  - intros Hlt. rewrite decide_False by lia. reflexivity.
  - intros Hge Hno. rewrite decide_True by lia.
    rewrite (Split_whole _ _ Hno). simpl length.
    rewrite decide_False by lia. split; reflexivity.
Qed.

Lemma parseKeygen_short_output_witness :
  initialize.parseKeygen "age-keygen: error" hosts.box1Server = hosts.box1Server.
Proof.
  apply (parseKeygen_short_output "age-keygen: error" hosts.box1Server).
  vm_compute. lia.
Defined.

(** ** The worker: what it writes and what it keeps *)

Lemma stage_actions_quiet (l : list Action) :
  forallb isStageAction l = true -> events l = [] /\ forallb isProgress l = true.
Proof.
  induction l as [|a l IH]; simpl; [split; reflexivity|].
  intros H. apply andb_true_iff in H as [Ha Hl]. destruct (IH Hl) as [He Hp].
  destruct a; simpl in *; try discriminate; rewrite ?He, ?Hp; split; reflexivity.
Qed.

Lemma stage_action_local (a : Action) : isLocalTool a = true -> isStageAction a = true.
Proof. destruct a; simpl; intros H; try reflexivity; discriminate. Qed.

Lemma stage_action_login (server : string) (a : Action) :
  isLoginTo server a = true -> isStageAction a = true.
Proof. destruct a; simpl; intros H; try reflexivity; discriminate. Qed.

Lemma stage_action_command (client : Client) (a : Action) :
  isCommandOn client a = true -> isStageAction a = true.
Proof. destruct a; simpl; intros H; try reflexivity; discriminate. Qed.

Lemma stage_action_setup (client : Client) (a : Action) :
  isCommandOn client a || isKeygen a = true -> isStageAction a = true.
Proof. destruct a; simpl; intros H; try reflexivity; discriminate. Qed.

Section Endings.
Variable env : Env.
Variable config : SidekickConfig.
Variable P : SidekickServer -> Prop.

Lemma ending_fail (n : nat) (msg : string) :
  Ending env config P n (initialize.Send (render.ErrorMsg msg);; mret config).
Proof.
  intros t. left. exists 0%nat, msg, []. repeat split. lia.
Qed.

Lemma ending_advance (n : nat) (c : M SidekickConfig) :
  Ending env config P n c ->
  Ending env config P (S n) (initialize.Send render.NextStageMsg;; c).
Proof.
  intros Hc t. rewrite bind_run. simpl.
  destruct (Hc (t ++ [ASend render.NextStageMsg]))
    as [(k & msg & pre & Hk & Hr & He & Hp)
       |[(s & msg & pre & tail & HP & Hr & He & Hp & Htail)
        |(s & took & data & pre & HP & Hy & Hr & He & Hp)]]; rewrite Hr; simpl.
  - left. exists (S k), msg, (ASend render.NextStageMsg :: pre).
    simpl. rewrite He, Hp. repeat split. lia.
  - right. left. exists s, msg, (ASend render.NextStageMsg :: pre), tail.
    simpl. rewrite He, Hp. repeat split; assumption.
  - right. right. exists s, took, data, (ASend render.NextStageMsg :: pre).
    simpl. rewrite He, Hp. repeat split; assumption.
Qed.

Lemma ending_bind {A : Type} (n : nat) (m : M A) (k : A -> M SidekickConfig) :
  Confined isStageAction m ->
  (forall t, Ending env config P n (k (fst (m t)))) ->
  Ending env config P n (m ≫= k).
Proof.
  intros Hm Hk t. rewrite bind_run.
  destruct (stage_actions_quiet _ (Hm t)) as [Hq Hpr].
  destruct (Hk t (t ++ snd (m t)))
    as [(j & msg & pre & Hj & Hr & He & Hp)
       |[(s & msg & pre & tail & HP & Hr & He & Hp & Htail)
        |(s & took & data & pre & HP & Hy & Hr & He & Hp)]]; rewrite Hr; simpl.
  - left. exists j, msg, (snd (m t) ++ pre).
    rewrite app_assoc, events_app, forallb_app, Hq, He, Hpr, Hp. repeat split. assumption.
  - right. left. exists s, msg, (snd (m t) ++ pre), tail.
    rewrite app_assoc, events_app, forallb_app, Hq, He, Hpr, Hp. repeat split; assumption.
  - right. right. exists s, took, data, (snd (m t) ++ pre).
    rewrite app_assoc, events_app, forallb_app, Hq, He, Hpr, Hp. repeat split; assumption.
Qed.

Lemma ending_save (s : SidekickServer) :
  P s ->
  Ending env config P 0
    (es ← utils.Save env (initialize.register config s) (configPath env);
     match es with
     | Some err =>
         initialize.Send (render.ErrorMsg ("Failed to write config: " +:+ err));;
         mret (initialize.register config s)
     | None =>
         took ← initialize.Since env;
         initialize.Send (render.AllDoneMsg (initialize.doneMessage took));;
         mret (initialize.register config s)
     end).
Proof.
  intros HP t. unfold utils.Save.
  destruct (yamlMarshal env (initialize.register config s)) as [data|err] eqn:Hy.
  - run_monad.
    destruct (writeFile env t (configPath env) data) as [err|] eqn:Hw; simpl.
    + right. left. exists s, ("Failed to write config: " +:+ err), [],
        [AWriteFile (configPath env) data].
      repeat split; try assumption. right. exists data. split; [reflexivity | exact Hy].
    + right. right. eexists s, _, data, []. repeat split; try eassumption; reflexivity.
  - run_monad. right. left. exists s, ("Failed to write config: " +:+ err), [], [].
    repeat split; try assumption. left. split; [reflexivity | exists err; exact Hy].
Qed.

End Endings.

(** Case distinction on the result the worker looks at next. *)
Ltac split_ending :=
  match goal with
  | |- Ending _ _ _ _ (match ?x with _ => _ end) => destruct x
  end; cbv beta iota.

Lemma worker_ending (env : Env) (catalog : Catalog) (config : SidekickConfig)
    (server certEmail : string) (sidekickServer : SidekickServer)
    (P : SidekickServer -> Prop) :
  (forall client t,
      P (fst (fst (initialize.stage4VPSSetup env catalog client sidekickServer t)))) ->
  Ending env config P 5
    (initialize.worker env catalog config server certEmail sidekickServer).
Proof.
  intros Hstage4. unfold initialize.worker.
  apply ending_bind.
  { apply (confined_weaken _ _ _ stage_action_local), confined_stage1LocalReqs. }
  intros t1. split_ending; [apply ending_fail|].
  apply ending_advance.
  apply ending_bind.
  { apply (confined_weaken _ _ _ (stage_action_login server)), confined_stage2Login. }
  intros t2. split_ending; [split_ending|apply ending_fail].
  apply ending_advance.
  apply ending_bind.
  { eapply (confined_weaken _ _ _ (stage_action_command _)), confined_stage3UserSetup. }
  intros t3. split_ending; [apply ending_fail|].
  apply ending_bind.
  { apply (confined_weaken (isLoginTo server)); [apply stage_action_login|].
    unfold utils.Login. confined. }
  intros t3'. split_ending; [|apply ending_fail].
  apply ending_advance.
  apply ending_bind.
  { eapply (confined_weaken _ _ _ (stage_action_setup _)), confined_stage4VPSSetup. }
  intros t4. cbv beta zeta.
  match goal with |- context [initialize.stage4VPSSetup _ _ ?c _ _] =>
    pose proof (Hstage4 c t4) as Hid end.
  split_ending; [apply ending_fail|].
  apply ending_advance.
  apply ending_bind.
  { eapply (confined_weaken _ _ _ (stage_action_command _)), confined_stage5Docker. }
  intros t5. split_ending; [apply ending_fail|].
  apply ending_advance.
  apply ending_bind.
  { eapply (confined_weaken _ _ _ (stage_action_command _)), confined_stage6Traefik. }
  intros t6. split_ending; [apply ending_fail|].
  apply ending_save. exact Hid.
Qed.

Lemma progress_no_write (l : list Action) :
  forallb isProgress l = true -> List.filter isWrite l = [].
Proof.
  induction l as [|a l IH]; simpl; [reflexivity|].
  intros H. apply andb_true_iff in H as [Ha Hl].
  destruct a; simpl in *; try discriminate; apply IH; exact Hl.
Qed.

Lemma filter_isWrite_app (l1 l2 : list Action) :
  List.filter isWrite (l1 ++ l2) = List.filter isWrite l1 ++ List.filter isWrite l2.
Proof. apply List.filter_app. Qed.

Lemma stage4VPSSetup_name (env : Env) (catalog : Catalog) (sidekickServer : SidekickServer)
    (client : Client) (t : Trace) :
  Server_Name (fst (fst (initialize.stage4VPSSetup env catalog client sidekickServer t))) =
  Server_Name sidekickServer.
Proof. apply stage4VPSSetup_identity. Qed.

Lemma stage_segment {A : Type} (m : M A) :
  Confined isStageAction m ->
  forall t, List.filter isWrite (snd (m t)) = [] /\ events (snd (m t)) = [].
Proof.
  intros Hm t. destruct (stage_actions_quiet _ (Hm t)) as [He Hp].
  split; [apply progress_no_write, Hp | exact He].
Qed.

Lemma last_app_some {A : Type} (l1 l2 : list A) (x : A) :
  last l2 = Some x -> last (l1 ++ l2) = Some x.
Proof. intros H. rewrite last_app, H. reflexivity. Qed.

Lemma last_cons_some {A : Type} (a : A) (l : list A) (x : A) :
  last l = Some x -> last (a :: l) = Some x.
Proof. intros H. rewrite last_cons, H. reflexivity. Qed.

(** Takes the next stage of the worker out of the goal: its result, its
    actions, and the facts that it wrote no file and sent no message. *)
Ltac open_stage r x a E W Q :=
  let H := fresh "H" in
  assert (Confined isStageAction r) as H by
    first
      [ apply (confined_weaken _ _ _ stage_action_local), confined_stage1LocalReqs
      | eapply (confined_weaken _ _ _ (stage_action_login _)), confined_stage2Login
      | eapply (confined_weaken _ _ _ (stage_action_command _)), confined_stage3UserSetup
      | eapply (confined_weaken _ _ _ (stage_action_setup _)), confined_stage4VPSSetup
      | eapply (confined_weaken _ _ _ (stage_action_command _)), confined_stage5Docker
      | eapply (confined_weaken _ _ _ (stage_action_command _)), confined_stage6Traefik ];
  match goal with
  | |- context [r ?tr] =>
      destruct (stage_segment _ H tr) as [W Q]; clear H;
      destruct (r tr) as [x a] eqn:E; cbn [fst snd] in W, Q |- *
  end.

(** A run of the worker that a failure has ended: no file among its
    actions, an error message as the last of them. *)
Ltac stopped_run :=
  left; split;
  [ repeat first
      [ rewrite filter_isWrite_app
      | match goal with
        | H : List.filter isWrite ?a = [] |- context [List.filter isWrite ?a] => rewrite H
        end
      | progress cbn [app List.filter isWrite] ];
    reflexivity
  | eexists; repeat first [reflexivity | apply last_app_some | apply last_cons_some] ].

(** X16.  The worker writes at most one file, and only once every stage
    has succeeded.  Either it writes nothing, and then its run ends with
    an error message; or all six stages and the login as sidekick have
    succeeded, the five advances have been sent, and only then, as its
    last action but one, the worker writes the registry file at the
    configured path: the marshalled registry into which the Host
    Identity, as the fourth stage left it, was put under its own name.
    Nothing was written before.  The one action after the write is the
    completion message when the write succeeded, and the error message
    of the save when it failed. *)
Theorem worker_writes_registry_once (env : Env) (catalog : Catalog)
    (config : SidekickConfig) (server certEmail : string)
    (sidekickServer : SidekickServer) (t : Trace) :
  let acts := snd (initialize.worker env catalog config server certEmail sidekickServer t) in
  (List.filter isWrite acts = [] /\
   exists msg, last acts = Some (ASend (render.ErrorMsg msg))) \/
  (exists s data pre terminal,
      StagesPassed env catalog server certEmail sidekickServer t pre s /\
      acts = pre ++ [AWriteFile (configPath env) data; terminal] /\
      List.filter isWrite pre = [] /\
      events pre = replicate 5 render.NextStageMsg /\
      match writeFile env (t ++ pre) (configPath env) data with
      | None =>
          terminal =
          ASend (render.AllDoneMsg
                   (initialize.doneMessage
                      (elapsed env ((t ++ pre) ++ [AWriteFile (configPath env) data]))))
      | Some err =>
          terminal = ASend (render.ErrorMsg ("Failed to write config: " +:+ err))
      end /\
      List.filter isWrite acts = [AWriteFile (configPath env) data] /\
      yamlMarshal env (initialize.register config s) = Ok data /\
      Server_Name s = Server_Name sidekickServer /\
      advances (events acts) = 5%nat).
Proof.
  intros acts. subst acts. rewrite worker_actions. cbv zeta.
  open_stage (initialize.stage1LocalReqs env) e1 a1 E1 W1 Q1.
  destruct e1 as [err|]; [stopped_run|].
  open_stage (initialize.stage2Login env server) r2 a2 E2 W2 Q2.
  destruct r2 as [[sshClient loggedInUser]|err]; [|stopped_run].
  open_stage (initialize.stage3UserSetup env catalog sshClient loggedInUser) e3 a3 E3 W3 Q3.
  destruct e3 as [err|]; [stopped_run|].
  match goal with |- context [sshLogin env ?tr server "sidekick"] =>
    destruct (sshLogin env tr server "sidekick") as [sidekickClient|err] eqn:E3'
  end; [|stopped_run].
  open_stage (initialize.stage4VPSSetup env catalog sidekickClient sidekickServer)
    r4 a4 E4 W4 Q4.
  destruct r4 as [s e4]. cbn [fst snd].
  destruct e4 as [err|]; [stopped_run|].
  open_stage (initialize.stage5Docker env catalog sidekickClient) e5 a5 E5 W5 Q5.
  destruct e5 as [err|]; [stopped_run|].
  open_stage (initialize.stage6Traefik env catalog sidekickClient certEmail) e6 a6 E6 W6 Q6.
  destruct e6 as [err|]; [stopped_run|].
  unfold utils.Save.
  destruct (yamlMarshal env (initialize.register config s)) as [data|err] eqn:Hy;
    [|rewrite ret_run; stopped_run].
  rewrite perform_run. cbn [fst snd].
  pose (pre := a1 ++ ASend render.NextStageMsg :: a2 ++ ASend render.NextStageMsg ::
               a3 ++ ALogin server "sidekick" :: ASend render.NextStageMsg ::
               a4 ++ ASend render.NextStageMsg :: a5 ++ ASend render.NextStageMsg :: a6).
  assert (List.filter isWrite pre = []) as Hw.
  { subst pre.
    repeat first
      [ rewrite filter_isWrite_app
      | match goal with
        | H : List.filter isWrite ?a = [] |- context [List.filter isWrite ?a] => rewrite H
        end
      | progress cbn [app List.filter isWrite] ].
    reflexivity. }
  assert (events pre = replicate 5 render.NextStageMsg) as He.
  { subst pre.
    repeat first
      [ rewrite events_app
      | match goal with
        | H : events ?a = [] |- context [events ?a] => rewrite H
        end
      | progress cbn [app events] ].
    reflexivity. }
  match goal with |- context [writeFile env ?tr _ _] =>
    assert (tr = t ++ pre) as Ht
      by (subst pre; repeat (rewrite <- app_assoc; cbn [app]); reflexivity);
    rewrite Ht
  end.
  match goal with |- context [a1 ++ ?x :: a2 ++ ?y :: a3 ++ ?z :: ?x' :: a4 ++ ?y' ::
                              a5 ++ ?z' :: a6 ++ ?tail] =>
    replace (a1 ++ x :: a2 ++ y :: a3 ++ z :: x' :: a4 ++ y' :: a5 ++ z' :: a6 ++ tail)
      with (pre ++ tail)
      by (subst pre; repeat (rewrite <- app_assoc; cbn [app]); reflexivity)
  end.
  pose proof (stage4VPSSetup_name env catalog sidekickServer sidekickClient) as Hname.
  match type of E4 with _ ?tr = _ => specialize (Hname tr); rewrite E4 in Hname end.
  cbn [fst] in Hname.
  right.
  destruct (writeFile env (t ++ pre) (configPath env) data) as [err|] eqn:Hwrite;
    exists s, data, pre; eexists; cbn [app];
    (split;
     [ exists a1, a2, a3, a4, a5, a6, sshClient, loggedInUser, sidekickClient;
       cbv zeta; repeat split; assumption
     | split; [reflexivity|]; split; [exact Hw|]; split; [exact He|];
       split; [rewrite Hwrite; reflexivity|];
       split; [rewrite filter_isWrite_app, Hw; reflexivity|];
       split; [exact Hy|]; split; [exact Hname|];
       rewrite events_app, He; reflexivity ]).
Qed.




(** ** The init command: questions, validation, overwrite *)

Lemma worker_asks_nothing (env : Env) (catalog : Catalog) (config : SidekickConfig)
    (server certEmail : string) (sidekickServer : SidekickServer) (t : Trace) :
  forallb (fun a => negb (isAsk a))
    (snd (initialize.worker env catalog config server certEmail sidekickServer t)) = true.
Proof.
  assert (forall l, forallb isProgress l = true ->
                    forallb (fun a => negb (isAsk a)) l = true) as Hpa.
  { intros l Hl. rewrite forallb_forall in *. intros a Ha. specialize (Hl a Ha).
    destruct a; simpl in *; try reflexivity; discriminate. }
  destruct (worker_ending env catalog config server certEmail sidekickServer
              (fun _ => True) (fun _ _ => I) t)
    as [(k & msg & pre & Hk & Hr & He & Hp)
       |[(s & msg & pre & tail & HP & Hr & He & Hp & Htail)
        |(s & took & data & pre & HP & Hy & Hr & He & Hp)]]; rewrite Hr; simpl.
  - rewrite forallb_app, (Hpa _ Hp). reflexivity.
  - rewrite !forallb_app, (Hpa _ Hp).
    destruct Htail as [(-> & _)|(data & -> & _)]; reflexivity.
  - rewrite forallb_app, (Hpa _ Hp). reflexivity.
Qed.

(** X18.  With the name, the address and the email given as flags and
    the yes flag set, the init command asks no question at all, also
    when the registry already holds the name with another address and a
    keypair: it logs in as root once and hands the worker the Host
    Identity of the registry (or a new one) with the address and the
    email of this run. *)
Theorem init_with_yes_asks_nothing (env : Env) (catalog : Catalog)
    (config : SidekickConfig) (name server certEmail : string) (t : Trace) :
  name <> "" -> server <> "" -> certEmail <> "" ->
  let acts := snd (initialize.Run env catalog (Some config)
                     (initialize.mkFlags true server certEmail name) t) in
  forallb (fun a => negb (isAsk a)) acts = true /\
  exists rest,
    acts = ALogin server "root" ::
           snd (initialize.worker env catalog config server certEmail
                  (startingIdentity config name server certEmail)
                  (t ++ [ALogin server "root"])) ++ rest.
Proof.
  intros Hname Hserver Hemail acts. subst acts.
  unfold initialize.Run. cbn [utils.GetSidekickConfigFromCmdContext].
  cbn [initialize.flag_name initialize.flag_server initialize.flag_email initialize.flag_yes].
  repeat first
    [ rewrite decide_False by assumption
    | rewrite bool_decide_eq_false_2 by assumption
    | rewrite andb_false_r
    | rewrite bind_run
    | rewrite ret_run
    | rewrite app_nil_r
    | progress cbn [fst snd andb negb app] ].
  unfold utils.Login, initialize.ProgramRun, perform. cbn [fst snd app].
  fold (startingIdentity config name server certEmail).
  split.
  - cbn [forallb isAsk negb andb]. rewrite forallb_app, worker_asks_nothing.
    cbn [forallb isAsk negb andb]. destruct (programRun env _); reflexivity.
  - eexists. reflexivity.
Qed.

Lemma init_with_yes_asks_nothing_witness :
  forallb (fun a => negb (isAsk a))
    (snd (initialize.Run hosts.fresh hosts.catalog (Some hosts.twoHosts)
            (initialize.mkFlags true "192.0.2.77" "a@b.com" "box1") [])) = true.
Proof.
  apply (init_with_yes_asks_nothing hosts.fresh hosts.catalog hosts.twoHosts
           "box1" "192.0.2.77" "a@b.com" []); discriminate.
Defined.

(** X19.  Which inputs of init are checked, whatever the flags.  The
    name is asked for first when its flag is empty.  An address that is
    asked for (no address flag) and that is not a valid IP address ends
    the command with status 1 right after the question.  An email that
    is asked for (no email flag) and answered with the empty string ends
    the command with status 1 right after the question, the address
    being given as a flag or asked for and valid.  No login is attempted
    in either case.  An address given as a flag is not checked at all:
    with the email given and the yes flag set, the command logs in to it
    as root right after the name is settled, valid IP address or not. *)
Theorem init_checks_prompted_inputs (env : Env) (catalog : Catalog)
    (config : SidekickConfig) (flags : initialize.Flags) (t : Trace) :
  let askName :=
    if decide (initialize.flag_name flags = "")
    then [AAsk "Please enter a name for your VPS" (randomName env)] else [] in
  let addressQuestion := "Please enter the IPv4 Address of your VPS" in
  let emailQuestion := "Please enter an email for use with TLS certs" in
  let askAddress :=
    if decide (initialize.flag_server flags = "")
    then [AAsk addressQuestion ""] else [] in
  (initialize.flag_server flags = "" ->
   IsValidIPAddress env (textAnswer env (t ++ askName) addressQuestion "") = false ->
   initialize.Run env catalog (Some config) flags t =
   (OsExit 1, askName ++ [AAsk addressQuestion ""])) /\
  (initialize.flag_email flags = "" ->
   (initialize.flag_server flags = "" ->
    IsValidIPAddress env (textAnswer env (t ++ askName) addressQuestion "") = true) ->
   textAnswer env ((t ++ askName) ++ askAddress) emailQuestion "" = "" ->
   initialize.Run env catalog (Some config) flags t =
   (OsExit 1, askName ++ askAddress ++ [AAsk emailQuestion ""])) /\
  (initialize.flag_server flags <> "" ->
   initialize.flag_email flags <> "" ->
   initialize.flag_yes flags = true ->
   exists rest,
     snd (initialize.Run env catalog (Some config) flags t) =
     askName ++ ALogin (initialize.flag_server flags) "root" :: rest).
Proof.
  destruct flags as [yes server certEmail name].
  intros askName addressQuestion emailQuestion askAddress.
  subst askName addressQuestion emailQuestion askAddress.
  unfold initialize.Run. cbn [utils.GetSidekickConfigFromCmdContext].
  cbn [initialize.flag_name initialize.flag_server initialize.flag_email
       initialize.flag_yes].
  repeat split.
  - intros -> Hbad.
    rewrite (decide_True (P := "" = "")) by reflexivity.
    rewrite (bool_decide_eq_true_2 ("" = "")) by reflexivity.
    rewrite bind_run.
    destruct (decide (name = "")) as [Hn|Hn];
      unfold initialize.GenerateTextQuestion; rewrite ?perform_run, ?ret_run;
      cbn [fst snd app andb]; rewrite bind_run, perform_run; cbn [fst snd app andb];
      rewrite Hbad; reflexivity.
  - intros -> Hvalid Hempty.
    rewrite bind_run.
    destruct (decide (name = "")) as [Hn|Hn];
      unfold initialize.GenerateTextQuestion; rewrite ?perform_run, ?ret_run;
      cbn [fst snd app andb]; rewrite bind_run.
    all: destruct (decide (server = "")) as [Hs|Hs].
    all: rewrite ?perform_run, ?ret_run; cbn [fst snd app andb].
    all: first [ rewrite (bool_decide_eq_true_2 _ Hs), (Hvalid Hs)
               | rewrite (bool_decide_eq_false_2 _ Hs) ];
      cbn [negb andb].
    all: rewrite (decide_True (P := "" = "")) by reflexivity.
    all: rewrite bind_run, perform_run; cbn [fst snd app]; rewrite Hempty.
    all: rewrite (decide_True (P := "" = "")) by reflexivity; reflexivity.
  - intros Hs He ->.
    rewrite (decide_False (P := server = "")) by assumption.
    rewrite (bool_decide_eq_false_2 (server = "")) by assumption.
    rewrite (decide_False (P := certEmail = "")) by assumption.
    rewrite bind_run.
    destruct (decide (name = "")) as [Hn|Hn];
      unfold initialize.GenerateTextQuestion; rewrite ?perform_run, ?ret_run;
      cbn [fst snd app andb negb].
    all: repeat (rewrite bind_run, ret_run; cbn [fst snd app andb negb]).
    all: rewrite ?app_nil_r.
    all: rewrite (decide_False (P := certEmail = "")) by assumption.
    all: rewrite andb_false_r.
    all: repeat (rewrite bind_run, ret_run; cbn [fst snd app andb negb]).
    all: rewrite bind_run; unfold utils.Login at 1; rewrite perform_run; cbn [fst snd app].
    all: eexists; reflexivity.
Qed.

Lemma init_checks_prompted_inputs_witness :
  let env := scenarios.validating hosts.fresh scenarios.dottedDigits in
  initialize.Run (scenarios.answering env (fun _ _ _ => "my-server.local"))
    hosts.catalog (Some cmd.emptyConfig) (initialize.mkFlags false "" "a@b.com" "box1") [] =
  (OsExit 1, [AAsk "Please enter the IPv4 Address of your VPS" ""]) /\
  IsValidIPAddress env "my-server.local" = false /\
  exists rest,
    snd (initialize.Run env hosts.catalog (Some cmd.emptyConfig)
           (initialize.mkFlags true "my-server.local" "a@b.com" "box1") []) =
    ALogin "my-server.local" "root" :: rest.
Proof.
  intros env. split; [|split; [reflexivity|]].
  - exact (proj1 (init_checks_prompted_inputs
                    (scenarios.answering env (fun _ _ _ => "my-server.local"))
                    hosts.catalog cmd.emptyConfig
                    (initialize.mkFlags false "" "a@b.com" "box1") [])
             eq_refl eq_refl).
  - exact (proj2 (proj2 (init_checks_prompted_inputs env hosts.catalog cmd.emptyConfig
                           (initialize.mkFlags true "my-server.local" "a@b.com" "box1") []))
             ltac:(discriminate) ltac:(discriminate) eq_refl).
Defined.





(** ** The config commands *)

(** X21.  [config use] changes the current-context pointer and nothing
    else, and does not check the name: the registry it writes has the
    servers, the contexts and the version it had, its only action is the
    write of that registry (none when it cannot be marshalled), and when
    no context carries the name, the current context of the written
    registry does not resolve. *)
Theorem use_context_changes_pointer_only (env : Env) (registry : SidekickConfig)
    (contextName : string) (t : Trace) :
  let registry' := initialize.setCurrentContext registry contextName in
  let acts := snd (config.useContextCmd env (Some registry) contextName t) in
  Servers registry' = Servers registry /\
  Contexts registry' = Contexts registry /\
  Version registry' = Version registry /\
  CurrentContext registry' = contextName /\
  (forall data, yamlMarshal env registry' = Ok data ->
                acts = [AWriteFile (configPath env) data]) /\
  (forall err, yamlMarshal env registry' = Err err -> acts = []) /\
  ((forall ctx, ctx ∈ Contexts registry -> Context_Name ctx <> contextName) ->
   utils.FindServerByContext registry' (CurrentContext registry') =
   Err ("context '" +:+ contextName +:+ "' not found")).
Proof.
  intros registry' acts. subst registry' acts.
  repeat split.
  - intros data Hy. unfold config.useContextCmd, utils.Save.
    cbn [utils.GetSidekickConfigFromCmdContext]. rewrite bind_run, Hy.
    rewrite perform_run, ret_run. reflexivity.
  - intros err Hy. unfold config.useContextCmd, utils.Save.
    cbn [utils.GetSidekickConfigFromCmdContext]. rewrite bind_run, Hy.
    rewrite !ret_run. reflexivity.
  - intros Hnone. unfold utils.FindServerByContext, utils.FindContext. simpl.
    rewrite findContextIn_firstNamed.
    pose proof (firstNamed_spec Context_Name contextName (Contexts registry)) as H.
    destruct (firstNamed Context_Name contextName (Contexts registry)) as [ctx|];
      [|reflexivity].
    destruct H as (i & Hi & Hn & _). exfalso. apply (Hnone ctx); [|exact Hn].
    apply list_elem_of_lookup. eauto.
Qed.

Lemma use_context_changes_pointer_only_witness :
  utils.FindServerByContext (initialize.setCurrentContext hosts.twoHosts "ghost") "ghost" =
  Err "context 'ghost' not found".
Proof.
  apply (use_context_changes_pointer_only hosts.fresh hosts.twoHosts "ghost" []).
  intros ctx Hin.
  repeat (apply elem_of_cons in Hin as [->|Hin]; [discriminate|]). inversion Hin.
Defined.

Lemma migrateCmd_printed (env : Env) (t : Trace) (content data : string)
    (serverConfig : SidekickServer) :
  readFile env t (configPath env) = Ok content ->
  yamlUnmarshalServer env content = Ok serverConfig ->
  yamlMarshal env (config.migrated serverConfig) = Ok data ->
  config.migrateCmd env t =
  match stdoutWrite env (t ++ [AReadFile (configPath env)]) data with
  | Some err => (OsExit 2, [AReadFile (configPath env); AStdout data; AFatal err])
  | None => (Returned, [AReadFile (configPath env); AStdout data])
  end.
Proof.
  intros Hr Hp Hm. unfold config.migrateCmd, utils.Print. run_monad. rewrite Hr. simpl.
  rewrite Hp. simpl. rewrite Hm. simpl.
  destruct (stdoutWrite env (t ++ [AReadFile (configPath env)]) data); reflexivity.
Qed.

(** X22.  Every way [config migrate] can end.  When the legacy file
    cannot be read, when it cannot be parsed, and when the registry
    built from it cannot be marshalled, the command prints the fatal
    line carrying that error right after the read and the process ends
    with status 2, the registry not printed.  When the registry is
    marshalled, it is written to standard output: the command returns
    when that write succeeds, and prints the fatal line carrying the
    error of the write and ends with status 2 when it fails.  In every
    case the file is read once and nothing is written to a file. *)
Theorem migrate_outcomes (env : Env) (t : Trace) :
  let path := configPath env in
  (forall msg, readFile env t path = Err msg ->
               config.migrateCmd env t = (OsExit 2, [AReadFile path; AFatal msg])) /\
  (forall content msg,
      readFile env t path = Ok content ->
      yamlUnmarshalServer env content = Err msg ->
      config.migrateCmd env t = (OsExit 2, [AReadFile path; AFatal msg])) /\
  (forall content serverConfig msg,
      readFile env t path = Ok content ->
      yamlUnmarshalServer env content = Ok serverConfig ->
      yamlMarshal env (config.migrated serverConfig) = Err msg ->
      config.migrateCmd env t = (OsExit 2, [AReadFile path; AFatal msg])) /\
  (forall content serverConfig data,
      readFile env t path = Ok content ->
      yamlUnmarshalServer env content = Ok serverConfig ->
      yamlMarshal env (config.migrated serverConfig) = Ok data ->
      config.migrateCmd env t =
      match stdoutWrite env (t ++ [AReadFile path]) data with
      | Some err => (OsExit 2, [AReadFile path; AStdout data; AFatal err])
      | None => (Returned, [AReadFile path; AStdout data])
      end).
Proof.
  intros path. subst path. unfold config.migrateCmd, utils.Print. repeat split.
  - intros msg Hr. run_monad. rewrite Hr. reflexivity.
  - intros content msg Hr Hp. run_monad. rewrite Hr. simpl. rewrite Hp. reflexivity.
  - intros content serverConfig msg Hr Hp Hm. run_monad. rewrite Hr. simpl.
    rewrite Hp. simpl. rewrite Hm. reflexivity.
  - intros content serverConfig data Hr Hp Hm.
    exact (migrateCmd_printed env t content data serverConfig Hr Hp Hm).
Qed.

Lemma migrate_outcomes_witness :
  config.migrateCmd (scenarios.withoutFile hosts.fresh) [] =
  (OsExit 2, [AReadFile (configPath hosts.fresh); AFatal "no such file or directory"]).
Proof.
  exact (proj1 (migrate_outcomes (scenarios.withoutFile hosts.fresh) [])
           "no such file or directory" eq_refl).
Defined.

(** X23.  The registry [config migrate] builds is consistent: its
    current context resolves to its only server, which is the Host
    Identity it was built from under the name default, and it passes the
    version gate of [initConfig] for every command. *)
Theorem migrated_is_consistent (serverConfig : SidekickServer) (c : root.Command) :
  let registry := config.migrated serverConfig in
  utils.FindServerByContext registry (CurrentContext registry) =
    Ok (mkServer "default" (Server_Address serverConfig) (Server_CertEmail serverConfig)
                 (Server_Distro serverConfig) (Server_PlatformId serverConfig)
                 (Server_PublicKey serverConfig) (Server_SecretKey serverConfig)) /\
  (forall t, root.versionGate c registry t = (root.Ready registry, [])).
Proof.
  split; reflexivity.
Qed.

(** ** The pre-run hook *)

Lemma requireConfigFile_cases (c : root.Command) :
  root.requireConfigFile c = false <->
  root.Name c = "init" \/ root.Name c = "help" \/
  (root.Parent c = Some "config" /\ root.Name c = "migrate").
Proof.
  unfold root.requireConfigFile. cbv zeta.
  destruct (decide (root.Name c = "init" \/ root.Name c = "help")) as [H|H].
  - split; [intros _; destruct H; auto | reflexivity].
  - destruct (root.Parent c) as [parentName|].
    + destruct (decide (parentName = "config" /\ root.Name c = "migrate")) as [[-> Hm]|Hn].
      * split; [intros _; right; right; split; [reflexivity | exact Hm] | reflexivity].
      * split; [discriminate|].
        intros [Hi|[Hh|[Hp Hm]]]; [exfalso; apply H; auto | exfalso; apply H; auto|].
        exfalso. apply Hn. injection Hp as ->. split; [reflexivity | exact Hm].
    + split; [discriminate|].
      intros [Hi|[Hh|[Hp Hm]]]; [exfalso; apply H; auto | exfalso; apply H; auto|].
      discriminate.
Qed.

Lemma shouldSkipConfigVersionCheck_cases (c : root.Command) :
  root.shouldSkipConfigVersionCheck c = true <->
  root.Name c = "help" \/ (root.Parent c = Some "config" /\ root.Name c = "migrate").
Proof.
  unfold root.shouldSkipConfigVersionCheck. cbv zeta.
  destruct (decide (root.Name c = "help")) as [H|H].
  - split; [intros _; left; exact H | reflexivity].
  - destruct (root.Parent c) as [parentName|].
    + destruct (decide (parentName = "config" /\ root.Name c = "migrate")) as [[-> Hm]|Hn].
      * split; [intros _; right; split; [reflexivity | exact Hm] | reflexivity].
      * split; [discriminate|].
        intros [Hh|[Hp Hm]]; [contradiction|].
        exfalso. apply Hn. injection Hp as ->. split; [reflexivity | exact Hm].
    + split; [discriminate|].
      intros [Hh|[Hp Hm]]; [contradiction | discriminate].
Qed.

(** X24.  Without a readable registry file, [initConfig] lets three
    commands through with the empty registry of version 1 (init, help,
    and migrate under config), having read the registry file once and
    done nothing else.  For every other command it prints, after that
    one read, the fatal line telling the user to run sidekick init, and
    the process ends with status 2. *)
Theorem initConfig_missing_file (env : Env)
    (unmarshalConfig : string -> SidekickConfig * error) (c : root.Command)
    (t : Trace) (msg : string) :
  readFile env t (configPath env) = Err msg ->
  let allowed := root.Name c = "init" \/ root.Name c = "help" \/
                 (root.Parent c = Some "config" /\ root.Name c = "migrate") in
  (allowed ->
   root.initConfig env unmarshalConfig c t =
   (root.Ready cmd.emptyConfig, [AReadFile (configPath env)])) /\
  (~ allowed ->
   root.initConfig env unmarshalConfig c t =
   (root.Stopped 2,
    [AReadFile (configPath env);
     AFatal "Sidekick config not found - Run sidekick init"])).
Proof.
  intros Hread allowed. subst allowed.
  unfold root.initConfig. run_monad. rewrite Hread.
  pose proof (requireConfigFile_cases c) as Hreq.
  destruct (root.requireConfigFile c).
  - split; [intros Ha; apply Hreq in Ha; discriminate | reflexivity].
  - split; [reflexivity|]. intros Hna. exfalso. apply Hna, Hreq. reflexivity.
Qed.

Lemma initConfig_missing_file_witness :
  root.initConfig (scenarios.withoutFile hosts.fresh) scenarios.parseRegistry
    (root.mkCommand "use" (Some "config")) [] =
  (root.Stopped 2,
   [AReadFile (configPath hosts.fresh);
    AFatal "Sidekick config not found - Run sidekick init"]).
Proof.
  apply (initConfig_missing_file (scenarios.withoutFile hosts.fresh) scenarios.parseRegistry
           (root.mkCommand "use" (Some "config")) [] "no such file or directory" eq_refl).
  simpl. intros [H|[H|[_ H]]]; discriminate.
Defined.

(** X25.  With a readable registry file, [initConfig] stores the parsed
    registry on the context when its version is 1, having read the file
    once and done nothing else; a registry of any other version is let
    through in the same way for help and for migrate under config only.
    For every other command, init included, a registry of another
    version makes the hook print, after the one read, the fatal line
    telling the user to run sidekick config migrate, and the process
    ends with status 2. *)
Theorem initConfig_version_gate (env : Env)
    (unmarshalConfig : string -> SidekickConfig * error) (c : root.Command)
    (t : Trace) (content : string) :
  readFile env t (configPath env) = Ok content ->
  let registry := fst (unmarshalConfig content) in
  let exempt := root.Name c = "help" \/
                (root.Parent c = Some "config" /\ root.Name c = "migrate") in
  (Version registry = "1" \/ exempt ->
   root.initConfig env unmarshalConfig c t =
   (root.Ready registry, [AReadFile (configPath env)])) /\
  (Version registry <> "1" -> ~ exempt ->
   root.initConfig env unmarshalConfig c t =
   (root.Stopped 2,
    [AReadFile (configPath env);
     AFatal "An older version of the config file found. Please run 'sidekick config migrate'."])).
Proof.
  intros Hread registry exempt. subst registry exempt.
  unfold root.initConfig, root.versionGate. run_monad. rewrite Hread. simpl.
  pose proof (shouldSkipConfigVersionCheck_cases c) as Hskip.
  split.
  - intros [Hv|He].
    + rewrite bool_decide_eq_true_2 by assumption. reflexivity.
    + apply Hskip in He. rewrite He. rewrite andb_false_r. reflexivity.
  - intros Hv Hne. rewrite bool_decide_eq_false_2 by assumption.
    destruct (root.shouldSkipConfigVersionCheck c); [|reflexivity].
    exfalso. apply Hne, Hskip. reflexivity.
Qed.

Lemma initConfig_version_gate_witness :
  root.initConfig hosts.fresh scenarios.parseRegistry
    (root.mkCommand "init" (Some "sidekick")) [] =
  (root.Stopped 2,
   [AReadFile (configPath hosts.fresh);
    AFatal "An older version of the config file found. Please run 'sidekick config migrate'."]).
Proof.
  apply (initConfig_version_gate hosts.fresh scenarios.parseRegistry
           (root.mkCommand "init" (Some "sidekick")) [] "address: 198.51.100.7" eq_refl).
  - discriminate.
  - simpl. intros [H|[_ H]]; discriminate.
Defined.

(** ** Command lines, from the pre-run hook to the exit status *)

(** X26.  Without a readable registry file, [config use] and [config
    current] are ended by the pre-run hook: after the failed read the
    fatal line telling the user to run sidekick init is printed and the
    process ends with status 2; the command itself is not run, so
    nothing is written.  [init] runs all the same, on the empty registry
    of version 1, and the lookup of the registry on the command context
    cannot fail. *)
Theorem execute_without_registry (env : Env)
    (unmarshalConfig : string -> SidekickConfig * error) (catalog : Catalog)
    (t : Trace) (msg : string) (contextName : string) (flags : initialize.Flags) :
  readFile env t (configPath env) = Err msg ->
  let read := AReadFile (configPath env) in
  let fatal := AFatal "Sidekick config not found - Run sidekick init" in
  root.Execute env unmarshalConfig catalog (root.ConfigUse contextName) t =
    (2, [read; fatal]) /\
  root.Execute env unmarshalConfig catalog root.ConfigCurrent t =
    (2, [read; fatal]) /\
  root.Execute env unmarshalConfig catalog (root.Init flags) t =
    (cmd.exitStatus
       (fst (initialize.Run env catalog (Some cmd.emptyConfig) flags (t ++ [read]))),
     read :: snd (initialize.Run env catalog (Some cmd.emptyConfig) flags (t ++ [read]))).
Proof.
  intros Hread read fatal. subst read fatal.
  unfold root.Execute, root.initConfig. repeat split.
  - run_monad. rewrite Hread. reflexivity.
  - run_monad. rewrite Hread. reflexivity.
  - rewrite !bind_run, perform_run. cbn [fst snd]. rewrite Hread.
    cbn [root.commandOf].
    change (root.requireConfigFile (root.mkCommand "init" (Some "sidekick"))) with false.
    change (root.versionGate (root.mkCommand "init" (Some "sidekick")) cmd.emptyConfig)
      with (mret (M := M) (root.Ready cmd.emptyConfig)).
    cbv iota. rewrite ret_run. cbn [fst snd app].
    rewrite bind_run, ret_run. cbn [fst snd app]. rewrite !app_nil_r. reflexivity.
Qed.

Lemma execute_without_registry_witness :
  root.Execute (scenarios.withoutFile hosts.fresh) scenarios.parseRegistry hosts.catalog
    (root.ConfigUse "prod") [] =
  (2, [AReadFile (configPath hosts.fresh);
       AFatal "Sidekick config not found - Run sidekick init"]).
Proof.
  exact (proj1 (execute_without_registry (scenarios.withoutFile hosts.fresh)
                  scenarios.parseRegistry hosts.catalog [] "no such file or directory"
                  "prod" hosts.box1Flags eq_refl)).
Defined.

(** X27.  [config migrate] from the command line reads the legacy file
    twice, once in the pre-run hook and once in the command, and the
    version the hook finds in it does not matter: when the second read
    is parsed as a Host Identity and the registry built from it is
    marshalled and printed, the process ends with status 0 and has
    written no file. *)
Theorem execute_migrate (env : Env)
    (unmarshalConfig : string -> SidekickConfig * error) (catalog : Catalog)
    (t : Trace) (content content' data : string) (serverConfig : SidekickServer) :
  let read := AReadFile (configPath env) in
  readFile env t (configPath env) = Ok content ->
  readFile env (t ++ [read]) (configPath env) = Ok content' ->
  yamlUnmarshalServer env content' = Ok serverConfig ->
  yamlMarshal env (config.migrated serverConfig) = Ok data ->
  stdoutWrite env (t ++ [read; read]) data = None ->
  root.Execute env unmarshalConfig catalog root.ConfigMigrate t =
  (0, [read; read; AStdout data]).
Proof.
  intros read Hr1 Hr2 Hp Hm Hw. subst read.
  pose proof (migrateCmd_printed env (t ++ [AReadFile (configPath env)]) content' data
                serverConfig Hr2 Hp Hm) as Hmig.
  rewrite <- app_assoc in Hmig. simpl in Hmig. rewrite Hw in Hmig.
  assert (forall registry,
             root.versionGate (root.commandOf root.ConfigMigrate) registry =
             mret (M := M) (root.Ready registry)) as Hgate.
  { intros registry. unfold root.versionGate.
    change (root.shouldSkipConfigVersionCheck (root.commandOf root.ConfigMigrate))
      with true.
    cbn [negb]. rewrite andb_false_r. reflexivity. }
  unfold root.Execute, root.initConfig.
  rewrite !bind_run, perform_run. cbn [fst snd]. rewrite Hr1, Hgate.
  rewrite !ret_run. cbn [fst snd app].
  rewrite bind_run, Hmig. reflexivity.
Qed.

Lemma execute_migrate_witness :
  root.Execute hosts.fresh scenarios.parseRegistry hosts.catalog root.ConfigMigrate [] =
  (0, [AReadFile (configPath hosts.fresh); AReadFile (configPath hosts.fresh);
       AStdout (hosts.showConfig (config.migrated hosts.legacyServer))]).
Proof.
  exact (execute_migrate hosts.fresh scenarios.parseRegistry hosts.catalog []
           "address: 198.51.100.7" "address: 198.51.100.7"
           (hosts.showConfig (config.migrated hosts.legacyServer)) hosts.legacyServer
           eq_refl eq_refl eq_refl eq_refl eq_refl).
Defined.
